(** * lib-wallet-pay-btc: ledger, cache, transport and builder

    A shallow embedding of the parts of the wallet that its specification
    makes checkable statements about:

    - [Balance]        (src/address-manager.js)  three-bucket balances
    - [AddressManager] (src/address-manager.js)  history index
    - [BlockCounter]   (src/utils.js)            tracked block height
    - [RequestCache], [Electrum] (electrum.js)   cache, demultiplexer,
                                                 block reward
    - [Transaction]    (src/transaction.js)      fee check, two-pass
                                                 builder, broadcast

    Asynchronous methods are embedded as state-passing functions: the
    source awaits every store and network call in sequence, so each
    method is a straight line of effects on the objects it owns. *)

From Stdlib Require Import ZArith QArith Qpower List Lia Bool.
From stdpp Require Import gmap strings list fin_maps pretty.

Import ListNotations.
Set Warnings "-register-all".
Local Open Scope list_scope.
Local Open Scope Z_scope.

(** ** JavaScript values *)

(** A number-or-undefined slot: [None] is [undefined]. Configuration
    fields, the fee rate and optional numeric fields have this shape. *)
Definition jsnum := option Z.

(** Truthiness of a number slot: [undefined] and [0] are falsy. *)
Definition truthy_num (x : jsnum) : bool :=
  match x with
  | Some n => negb (n =? 0)
  | None => false
  end.

(** [a || b] on number slots. *)
Definition js_or_num (a b : jsnum) : jsnum :=
  if truthy_num a then a else b.

(** Relational operators: any comparison with [undefined] is [false]
    ([undefined] converts to [NaN]). *)
Definition js_le (a b : jsnum) : bool :=
  match a, b with
  | Some x, Some y => x <=? y
  | _, _ => false
  end.

Definition js_gt (a b : jsnum) : bool :=
  match a, b with
  | Some x, Some y => y <? x
  | _, _ => false
  end.

Definition js_ge (a b : jsnum) : bool :=
  match a, b with
  | Some x, Some y => y <=? x
  | _, _ => false
  end.

(** Values carried by JSON frames, plus [undefined] for an absent field. *)
Inductive jsval : Type :=
| JUndefined
| JNull
| JBool (b : bool)
| JNum (n : Z)
| JStr (s : string)
| JArr (items : list jsval)
| JObj (fields : list (string * jsval)).

Definition truthy (v : jsval) : bool :=
  match v with
  | JUndefined | JNull => false
  | JBool b => b
  | JNum n => negb (n =? 0)
  | JStr s => negb (String.eqb s ""%string)
  | JArr _ | JObj _ => true
  end.

(** [a || b]. *)
Definition js_or (a b : jsval) : jsval :=
  if truthy a then a else b.

(** ** Balance (src/address-manager.js) *)

Module Balance.

(** The keys of [this.txid], which are also the names of the three
    amount fields. *)
Inductive bucket := confirmed | pending | mempool.

Definition bucket_eqb (x y : bucket) : bool :=
  match x, y with
  | confirmed, confirmed | pending, pending | mempool, mempool => true
  | _, _ => false
  end.

(** A [[txid, amount]] pair of a txid list. *)
Definition entry : Type := string * Z.

(** Modelled from the spec: the class [Bitcoin] (currency.js) is not
    part of the sources at hand; section 3 of the specification makes an
    amount an exact integer number of satoshis, so [add] and [minus]
    are addition and subtraction on [Z]. *)
Record t := mk {
  bal_confirmed : Z;
  bal_pending : Z;
  bal_mempool : Z;
  txid_confirmed : list entry;
  txid_pending : list entry;
  txid_mempool : list entry
}.

(** [new Balance(0, 0, 0)] *)
Definition empty : t := mk 0 0 0 [] [] [].

(** [this[state]] *)
Definition amount_of (state : bucket) (b : t) : Z :=
  match state with
  | confirmed => bal_confirmed b
  | pending => bal_pending b
  | mempool => bal_mempool b
  end.

(** [this[state] = v] *)
Definition set_amount (state : bucket) (v : Z) (b : t) : t :=
  match state with
  | confirmed => mk v (bal_pending b) (bal_mempool b)
                    (txid_confirmed b) (txid_pending b) (txid_mempool b)
  | pending => mk (bal_confirmed b) v (bal_mempool b)
                  (txid_confirmed b) (txid_pending b) (txid_mempool b)
  | mempool => mk (bal_confirmed b) (bal_pending b) v
                  (txid_confirmed b) (txid_pending b) (txid_mempool b)
  end.

(** [this.txid[state]] *)
Definition txid_of (state : bucket) (b : t) : list entry :=
  match state with
  | confirmed => txid_confirmed b
  | pending => txid_pending b
  | mempool => txid_mempool b
  end.

(** [this.txid[state] = l] *)
Definition set_txid (state : bucket) (l : list entry) (b : t) : t :=
  match state with
  | confirmed => mk (bal_confirmed b) (bal_pending b) (bal_mempool b)
                    l (txid_pending b) (txid_mempool b)
  | pending => mk (bal_confirmed b) (bal_pending b) (bal_mempool b)
                  (txid_confirmed b) l (txid_mempool b)
  | mempool => mk (bal_confirmed b) (bal_pending b) (bal_mempool b)
                  (txid_confirmed b) (txid_pending b) l
  end.

Definition addBalance (state : bucket) (amount : Z) (b : t) : t :=
  set_amount state (amount_of state b + amount) b.

Definition minusBalance (state : bucket) (amount : Z) (b : t) : t :=
  set_amount state (amount_of state b - amount) b.

(** The callback of [filter] in [addTxid], run over the list [l]: an
    entry whose txid is [txid] is dropped and [minusBalance(state,
    amount)] runs -- with the [amount] passed to [addTxid], the callback
    destructures only the txid of the entry. The object is threaded
    through because the callback mutates it. *)
Fixpoint filter_txid (state : bucket) (txid : string) (amount : Z)
         (l : list entry) (b : t) : list entry * t :=
  match l with
  | [] => ([], b)
  | e :: rest =>
      if String.eqb (fst e) txid
      then filter_txid state txid amount rest (minusBalance state amount b)
      else let '(kept, b') := filter_txid state txid amount rest b in
           (e :: kept, b')
  end.

(** One iteration of [for (const state in this.txid)]. *)
Definition sweep (txid : string) (amount : Z) (b : t) (state : bucket) : t :=
  let '(kept, b') := filter_txid state txid amount (txid_of state b) b in
  set_txid state kept b'.

(** The keys of [this.txid] in the order the constructor creates them. *)
Definition buckets : list bucket := [confirmed; pending; mempool].

Definition addTxid (state : bucket) (txid : string) (amount : Z) (b : t) : t :=
  let b1 := fold_left (sweep txid amount) buckets b in
  let b2 := addBalance state amount b1 in
  set_txid state (txid_of state b2 ++ [(txid, amount)]) b2.

(** [formatted().consolidated] *)
Definition consolidated (b : t) : Z :=
  bal_confirmed b + bal_pending b + bal_mempool b.

(** The entries of [l] recorded for [txid], and the others. *)
Definition records (txid : string) (l : list entry) : list entry :=
  List.filter (fun e => String.eqb (fst e) txid) l.

Definition without (txid : string) (l : list entry) : list entry :=
  List.filter (fun e => negb (String.eqb (fst e) txid)) l.

(** How many entries of the three lists are recorded for [txid]. *)
Definition occurrences (txid : string) (b : t) : nat :=
  (length (records txid (txid_confirmed b))
   + length (records txid (txid_pending b))
   + length (records txid (txid_mempool b)))%nat.

(** The rule as the specification words it: every prior record of
    [txid] is removed from every bucket and the amount stored in that
    record is subtracted from the bucket; then [amount] is added to
    [state] and the new record appended. *)
Definition recorded_sum (txid : string) (l : list entry) : Z :=
  fold_right (fun e acc => snd e + acc) 0 (records txid l).

Definition spec_bucket (state : bucket) (txid : string) (amount : Z)
           (s : bucket) (b : t) : Z * list entry :=
  (amount_of s b - recorded_sum txid (txid_of s b)
     + (if bucket_eqb s state then amount else 0),
   without txid (txid_of s b)
     ++ (if bucket_eqb s state then [(txid, amount)] else [])).

Definition addTxid_spec (state : bucket) (txid : string) (amount : Z) (b : t) : t :=
  mk (fst (spec_bucket state txid amount confirmed b))
     (fst (spec_bucket state txid amount pending b))
     (fst (spec_bucket state txid amount mempool b))
     (snd (spec_bucket state txid amount confirmed b))
     (snd (spec_bucket state txid amount pending b))
     (snd (spec_bucket state txid amount mempool b)).

(** The same shape with what the loop of [addTxid] does: every removed
    record takes the [amount] of the call off its bucket. *)
Definition code_bucket (state : bucket) (txid : string) (amount : Z)
           (s : bucket) (b : t) : Z * list entry :=
  (amount_of s b - amount * Z.of_nat (length (records txid (txid_of s b)))
     + (if bucket_eqb s state then amount else 0),
   without txid (txid_of s b)
     ++ (if bucket_eqb s state then [(txid, amount)] else [])).

Definition addTxid_closed (state : bucket) (txid : string) (amount : Z) (b : t) : t :=
  mk (fst (code_bucket state txid amount confirmed b))
     (fst (code_bucket state txid amount pending b))
     (fst (code_bucket state txid amount mempool b))
     (snd (code_bucket state txid amount confirmed b))
     (snd (code_bucket state txid amount pending b))
     (snd (code_bucket state txid amount mempool b)).

(** The states a ledger entry goes through: a fresh [Balance] and
    whatever [addTxid] makes of it. *)
Inductive reachable : t -> Prop :=
| reach_empty : reachable empty
| reach_addTxid state txid amount b :
    reachable b -> reachable (addTxid state txid amount b).

(** A mempool list that records the same txid twice, as the constructor
    accepts it from stored data. *)
Definition twice_in_mempool : t :=
  mk 0 0 20 [] [] [("t"%string, 10); ("t"%string, 10)].

(** One mempool record of 5 satoshis. *)
Definition five_in_mempool : t :=
  mk 0 0 5 [] [] [("t"%string, 5)].

End Balance.

(** ** AddressManager: the history index (src/address-manager.js) *)

Module AddressManager.

(** A transaction view; [tv_rest] stands for the fields the index never
    looks at (inputs, outputs, fee, flags). *)
Record txview := mk_txview {
  tv_txid : string;
  tv_height : Z;
  tv_rest : jsval
}.

(** What the [tx-history] store holds: a view under [i:<height>:<txid>],
    a height under [tx:<txid>]. *)
Inductive hval :=
| HTx (tx : txview)
| HHeight (h : Z).

(** [`i:${height}:${txid}`]; [pretty] prints an integer in decimal with
    a leading [-] when negative, as a template literal does. *)
Definition ikey (height : Z) (txid : string) : string :=
  "i:" +:+ pretty height +:+ ":" +:+ txid.

(** [`tx:${txid}`] *)
Definition txkey (txid : string) : string := "tx:" +:+ txid.

Definition getHeight (txid : string) (history : gmap string hval) : option hval :=
  history !! txkey txid.

Definition storeTx (tx : txview) (history : gmap string hval) : gmap string hval :=
  let h1 := delete (ikey 0 (tv_txid tx)) history in
  let h2 := delete (ikey (tv_height tx - 1) (tv_txid tx)) h1 in
  let h3 := <[ikey (tv_height tx) (tv_txid tx) := HTx tx]> h2 in
  <[txkey (tv_txid tx) := HHeight (tv_height tx)]> h3.

End AddressManager.

(** ** BlockCounter and StateDb (src/utils.js) *)

Module BlockCounter.

(** The payload of a [new-block] event. *)
Record blockinfo := mk_info { current : Z; diff : Z; last : Z }.

(** [block] is [this.block]; [state] is the store behind [StateDb];
    [emitted] collects the [new-block] events in order. *)
Record t := mk {
  block : Z;
  state : gmap string Z;
  emitted : list blockinfo
}.

(** [await store.get('latest_block') || 0] *)
Definition getLatestBlock (st : gmap string Z) : Z :=
  match st !! "latest_block"%string with
  | Some b => if b =? 0 then 0 else b
  | None => 0
  end.

Definition setLatestBlock (b : Z) (st : gmap string Z) : gmap string Z :=
  <["latest_block"%string := b]> st.

Definition init (c : t) : t :=
  mk (getLatestBlock (state c)) (state c) (emitted c).

(** The result is [None] for the bare [return] and [Some true] for
    [return true]. *)
Definition setBlock (height : Z) (c : t) : option bool * t :=
  let diff := height - block c in
  let last := block c in
  if diff <? 0 then (None, c)
  else
    (Some true,
     mk height
        (setLatestBlock height (state c))
        (emitted c ++ [mk_info height diff last])).

(** The counter after a run of pushes. *)
Definition setBlocks (heights : list Z) (c : t) : t :=
  fold_left (fun c h => snd (setBlock h c)) heights c.

End BlockCounter.

(** ** RequestCache (electrum.js) *)

Module RequestCache.

(** A verbose transaction as the server sends it and the provider
    caches it; [tx_height] is [undefined] until [_procTxHeight] sets
    it, [tx_body] stands for [vin], [vout] and [hex]. *)
Record tx := mk_tx {
  tx_txid : string;
  tx_confirmations : jsnum;
  tx_height : jsnum;
  tx_expiry : jsnum;
  tx_body : jsval
}.

Record config := mk_config {
  cache_timeout : jsnum;
  max_cache_size : jsnum
}.

(** [x || d] with a non-zero number literal [d]. *)
Definition or_default (x : jsnum) (d : Z) : Z :=
  match js_or_num x (Some d) with
  | Some n => n
  | None => d
  end.

(** The backing store holds the entries [key -> [value, expiry]] and,
    under the key ['cache_index'], the list of keys in insertion order.
    The index slot is kept as a field of its own: the keys are txids
    (64 hexadecimal characters), never the word ['cache_index']. *)
Record t := mk {
  store : gmap string (tx * Z);
  cache_index : option (list string);
  _cache_expiry : Z;
  _max_cache_size : Z;
  _cache_size : Z
}.

(** No statement of the class assigns [this._max_session_size]: it reads
    [undefined]. *)
Definition _max_session_size : jsnum := None.

(** The constructor, over a given backing store. *)
Definition new (cfg : config) (st : gmap string (tx * Z))
           (index : option (list string)) : t :=
  mk st index
     (or_default (cache_timeout cfg) 300000)
     (or_default (max_cache_size cfg) 10000)
     0.

(** [await store.get('cache_index') || []] *)
Definition _getCacheIndex (c : t) : list string :=
  match cache_index c with
  | Some index => index
  | None => []
  end.

(** [index.shift()] on an empty list gives [undefined], and deleting the
    key [undefined] removes no entry. *)
Definition _removeOldest (c : t) : t :=
  match _getCacheIndex c with
  | [] => mk (store c) (Some []) (_cache_expiry c) (_max_cache_size c) (_cache_size c)
  | key :: index =>
      mk (delete key (store c)) (Some index)
         (_cache_expiry c) (_max_cache_size c) (_cache_size c)
  end.

(** [now] is [Date.now()]. The assignment [this.size = index.length]
    runs the setter [set size (val) { return null }], which stores
    nothing, so [_cache_size] is left as it was. *)
Definition set (now : Z) (key : string) (value : tx) (c : t) : t :=
  let c1 :=
    if js_ge (Some (_cache_size c)) _max_session_size
    then _removeOldest c else c in
  let data :=
    match tx_expiry value with
    | Some e => if e =? 0 then (value, now + _cache_expiry c1) else (value, e)
    | None => (value, now + _cache_expiry c1)
    end in
  let index := _getCacheIndex c1 ++ [key] in
  mk (<[key := data]> (store c1)) (Some index)
     (_cache_expiry c1) (_max_cache_size c1) (_cache_size c1).

(** [data ? data[0] : null] *)
Definition get (key : string) (c : t) : option tx :=
  match store c !! key with
  | Some data => Some (fst data)
  | None => None
  end.

(** The number of cached entries. *)
Definition entries (c : t) : nat := size (store c).

(** A run of [set] calls, each with its clock reading. *)
Definition sets (calls : list (Z * string * tx)) (c : t) : t :=
  fold_left (fun c call => set (fst (fst call)) (snd (fst call)) (snd call) c)
    calls c.

Definition sample (txid : string) : tx :=
  mk_tx txid (Some 3) (Some 100) None JNull.

(** [n] calls of [set] on the keys ["0"], ["1"], ... *)
Definition fresh_calls (n : nat) : list (Z * string * tx) :=
  map (fun i : nat => (0, pretty i, sample (pretty i))) (seq 0 n).

End RequestCache.

(** ** Electrum: block reward, demultiplexer, transaction fetch *)

Module Electrum.

(** Modelled from the spec: [Bitcoin.BN] (currency.js) is not part of
    the sources at hand; section 3 of the specification wants scaling
    never to lose precision, so its values are exact rationals and
    [dividedBy] is exact division. [Math.floor(height / halvingInterval)]
    is the floor division of [Z]. *)
Definition getBlockReward (height : Z) : Q :=
  let initialReward := (inject_Z 50 * inject_Z 100000000)%Q in
  let halvingInterval := 210000 in
  let halvings := height / halvingInterval in
  (initialReward / Qpower (inject_Z 2) halvings)%Q.

(** A parsed frame. An absent field reads [undefined]. [f_method] is a
    string when present. [f_params] is the array a push carries (for a
    reply it is not read); a push whose [params] is no array makes the
    spread of [emit] throw and is not described here, nor is what the
    listeners of the emitted event go on to do. *)
Record frame := mk_frame {
  f_id : jsval;
  f_method : option string;
  f_params : list jsval;
  f_result : jsval;
  f_error : jsval
}.

Inductive event :=
| Emit (name : string) (args : list jsval)
| RequestError
| Resolved (id : string) (value : jsval)
| Rejected (id : string) (error : jsval) (method : string).

(** [this.requests]: id -> method. The [resolve] and [reject] of an
    entry are named by its id in [Resolved] and [Rejected]. *)
Definition get_request (id : jsval) (requests : gmap string string) : option (string * string) :=
  match id with
  | JStr s => match requests !! s with
              | Some method => Some (s, method)
              | None => None
              end
  | _ => None
  end.

Definition delete_request (id : jsval) (requests : gmap string string) : gmap string string :=
  match id with
  | JStr s => delete s requests
  | _ => requests
  end.

(** [resp?.method?.includes('.subscribe')] *)
Definition is_subscribe (m : option string) : bool :=
  match m with
  | Some name =>
      match String.index 0 ".subscribe" name with
      | Some _ => true
      | None => false
      end
  | None => false
  end.

Definition is_null (v : jsval) : bool :=
  match v with JNull => true | _ => false end.

(** [data] is [None] when [JSON.parse] throws. *)
Definition _handleResponse (data : option frame) (requests : gmap string string)
  : gmap string string * list event :=
  match data with
  | None => (requests, [RequestError])
  | Some resp =>
      if is_subscribe (f_method resp) then
        (delete_request (f_id resp) requests,
         [Emit (default ""%string (f_method resp)) (f_params resp)])
      else
        let _resp := get_request (f_id resp) requests in
        if truthy (f_error resp) then
          (delete_request (f_id resp) requests,
           match _resp with
           | Some (id, method) => [Rejected id (f_error resp) method]
           | None => []
           end)
        else
          match _resp with
          | None => (requests, [RequestError])
          | Some (id, _) =>
              let isNull := is_null (f_result resp) in
              (delete_request (f_id resp) requests,
               [Resolved id
                  (if isNull then JNull
                   else js_or (f_result resp) (f_error resp))])
          end
  end.

(** The provider, as far as [_txGet] goes. *)
Record t := mk {
  cache : RequestCache.t;
  block_height : Z
}.

Definition _procTxHeight (p : t) (tx : RequestCache.tx) : RequestCache.tx :=
  match RequestCache.tx_confirmations tx with
  | Some c =>
      if c =? 0
      then RequestCache.mk_tx (RequestCache.tx_txid tx) (Some c) (Some 0)
             (RequestCache.tx_expiry tx) (RequestCache.tx_body tx)
      else RequestCache.mk_tx (RequestCache.tx_txid tx) (Some c)
             (Some (block_height p - (c - 1)))
             (RequestCache.tx_expiry tx) (RequestCache.tx_body tx)
  | None =>
      RequestCache.mk_tx (RequestCache.tx_txid tx) None (Some 0)
        (RequestCache.tx_expiry tx) (RequestCache.tx_body tx)
  end.

(** [opts.cache === false] *)
Definition is_false (v : jsval) : bool :=
  match v with JBool false => true | _ => false end.

(** [tx.height !== 0] *)
Definition height_not_zero (tx : RequestCache.tx) : bool :=
  match RequestCache.tx_height tx with
  | Some h => negb (h =? 0)
  | None => true
  end.

(** The three statements both fetching branches of [_txGet] consist of.
    [server txid] is the reply to [blockchain.transaction.get]; [None]
    is a rejected request, which [_txGet] lets through to its caller.
    The last component lists the txids requested from the server. *)
Definition fetch (server : string -> option RequestCache.tx) (now : Z)
           (txid : string) (p : t) : option RequestCache.tx * t * list string :=
  match server txid with
  | None => (None, p, [txid])
  | Some data =>
      let data := _procTxHeight p data in
      (Some data, mk (RequestCache.set now txid data (cache p)) (block_height p),
       [txid])
  end.

Definition _txGet (server : string -> option RequestCache.tx) (now : Z)
           (txid : string) (opts_cache : jsval) (p : t)
  : option RequestCache.tx * t * list string :=
  if is_false opts_cache then fetch server now txid p
  else
    match RequestCache.get txid (cache p) with
    | Some cacheValue =>
        if height_not_zero cacheValue then (Some cacheValue, p, [])
        else fetch server now txid p
    | None => fetch server now txid p
    end.

(** A provider at tip 102 whose cache holds a confirmed view of ["ab"]
    and a mempool view of ["cd"], and a server that reports one
    confirmation for whatever it is asked. *)
Definition warm : t :=
  mk (RequestCache.set 0 "ab" (RequestCache.sample "ab")
        (RequestCache.set 0 "cd"
           (RequestCache.mk_tx "cd" None (Some 0) None JNull)
           (RequestCache.new (RequestCache.mk_config None None) ∅ None)))
     102.

Definition one_confirmation (txid : string) : option RequestCache.tx :=
  Some (RequestCache.mk_tx txid (Some 1) None None JNull).

End Electrum.

(** ** Transaction: the builder (src/transaction.js) *)

Module Transaction.

Definition DUST_LIMIT : Z := 546.

(** The [maximumFeeRate] of the PSBT, in satoshis per virtual byte: the
    default of the library (bitcoinjs-lib 6.1.5, the version package.json
    pins), which [new bitcoin.Psbt({ network })] leaves as it is. *)
Definition maximumFeeRate : Z := 5000.

Record config := mk_config { max_fee_limit : jsnum }.

Record t := mk { _max_fee_limit : jsnum }.

(** [this._max_fee_limit = 100000 || config.max_fee_limit] *)
Definition new (cfg : config) : t :=
  mk (js_or_num (Some 100000) (max_fee_limit cfg)).

(** The calls the builder makes on its collaborators, in order.
    [UtxoForAmount amount granted]: the sync manager was asked for
    [amount] base units and either selected a set worth [granted] or
    threw. *)
Inductive call :=
| GetInternalAddress
| UtxoForAmount (amount : Z) (granted : option Z)
| UnlockUtxo (success : bool)
| AddSentTx
| Broadcast.

Inductive error :=
| InvalidFee (fee : jsnum)
| DustAmount (got : Z)
| Insufficient
| FailedToSimulate (cause : error)
| FailedToSend (cause : error)
| FailedToBroadcast
| BroadcastFailed (message : string)
| FeeRateTooHigh (feeRate : Z).

Inductive outcome (A : Type) :=
| Return (a : A)
| Throw (e : error)
| OutOfFuel.
Arguments Return {A} a.
Arguments Throw {A} e.
Arguments OutOfFuel {A}.

(** What [provider.broadcastTransaction] comes back with: a rejected
    promise, or a value whose [message] field is read. *)
Inductive reply :=
| Rejects
| Resolves (message : option string).

(** The collaborators that are not part of the sources at hand (sync
    manager, signer, provider), as the builder sees them:
    [utxoForAmount k amount] answers the [k]-th request with the total of
    the set it selects, or throws; [virtualSize total change] is the size
    of the signed transaction. A UTXO set is known by its total. *)
Record world := mk_world {
  utxoForAmount : nat -> Z -> option Z;
  virtualSize : Z -> Z -> Z;
  broadcastTransaction : reply
}.

Record sentTx := mk_sent {
  sent_fee : Z;
  sent_vSize : Z;
  sent_total : Z;
  sent_change : Z
}.

(** The [TxEntry] handed back. *)
Record txEntry := mk_entry {
  entry_fee : Z;
  entry_amount : Z
}.

(** [calls] is the log of collaborator calls, [_txData] the attempts,
    [asked] counts the [utxoForAmount] requests. *)
Record state := mk_state {
  calls : list call;
  _txData : list sentTx;
  asked : nat
}.

Definition start : state := mk_state [] [] 0.

Definition log (c : call) (s : state) : state :=
  mk_state (calls s ++ [c]) (_txData s) (asked s).

Definition ask (w : world) (amount : Z) (s : state) : option Z * state :=
  let granted := utxoForAmount w (asked s) amount in
  (granted,
   mk_state (calls s ++ [UtxoForAmount amount granted]) (_txData s) (S (asked s))).

(** [this._txData.at(-1)] *)
Definition getLastAttempt (s : state) : option sentTx := List.last (map Some (_txData s)) None.

(** The recursion of the source is bounded here by [fuel]: a sync
    manager that keeps granting too little would keep it going.
    [psbt.extractTransaction()] runs the fee check of the library: it
    throws when the fee paid, divided by the virtual size (a positive
    number) and rounded down, reaches [maximumFeeRate]; nothing has been
    pushed on [_txData] by then. *)
Fixpoint _generateRawTx (fuel : nat) (w : world) (total fee sendAmount weight : Z)
         (s : state) : outcome txEntry * state :=
  match fuel with
  | O => (OutOfFuel, s)
  | S fuel =>
      if sendAmount <=? DUST_LIMIT then (Throw (DustAmount sendAmount), s)
      else
        let totalFee := fee * weight in
        let change := total - sendAmount - totalFee in
        if change <? DUST_LIMIT then
          let s := log (UnlockUtxo false) s in
          let newAmount := total + fee in
          match ask w newAmount s with
          | (None, s) => (Throw Insufficient, s)
          | (Some newTotal, s) =>
              _generateRawTx fuel w newTotal fee sendAmount weight s
          end
        else
          let vSize := virtualSize w total change in
          if maximumFeeRate <=? totalFee / vSize
          then (Throw (FeeRateTooHigh (totalFee / vSize)), s)
          else
            let sent := mk_sent totalFee vSize total change in
            (Return (mk_entry totalFee sendAmount),
             mk_state (calls s) (_txData s ++ [sent]) (asked s))
  end.

(** [fee] is the fee rate, [amount] the amount in base units. *)
Definition _createTransaction (fuel : nat) (w : world) (this : t)
           (amount : Z) (fee : jsnum) (s : state) : outcome txEntry * state :=
  if negb (truthy_num fee) || js_le fee (Some 0) || js_gt fee (_max_fee_limit this)
  then (Throw (InvalidFee fee), s)
  else
    let rate := default 0 fee in
    let s := log GetInternalAddress s in
    match ask w amount s with
    | (None, s) => (Throw Insufficient, s)
    | (Some total, s) =>
        match _generateRawTx fuel w total rate amount 1 s with
        | (Throw e, s) => (Throw (FailedToSimulate e), s)
        | (OutOfFuel, s) => (OutOfFuel, s)
        | (Return _, s) =>
            let vSize := match getLastAttempt s with
                         | Some a => sent_vSize a
                         | None => 0
                         end in
            match _generateRawTx fuel w total rate amount vSize s with
            | (Throw e, s) => (Throw (FailedToSend e), s)
            | (OutOfFuel, s) => (OutOfFuel, s)
            | (Return finalTx, s) => (Return finalTx, log AddSentTx s)
            end
        end
    end.

(** [txid?.message] is truthy: a non-empty string. *)
Definition has_message (r : option string) : option string :=
  match r with
  | Some m => if String.eqb m ""%string then None else Some m
  | None => None
  end.

Definition send (fuel : nat) (w : world) (this : t)
           (amount : Z) (fee : jsnum) (s : state) : outcome txEntry * state :=
  match _createTransaction fuel w this amount fee s with
  | (Return tx, s) =>
      let s := log Broadcast s in
      match broadcastTransaction w with
      | Rejects => (Throw FailedToBroadcast, s)
      | Resolves r =>
          match has_message r with
          | Some m => (Throw (BroadcastFailed m), log (UnlockUtxo false) s)
          | None => (Return tx, log (UnlockUtxo true) s)
          end
      end
  | other => other
  end.

(** Modelled from the spec: the sync manager (sync-manager.js) is not
    part of the sources at hand. Section 4.5: [utxoForAmount] locks the
    UTXOs it selects and fails without a selection; [unlockUtxo(success)]
    takes the locked UTXOs out of the available set or hands them back --
    either way none stays locked. [locks_held held log] tells whether
    UTXOs are locked after the calls of [log]. *)
Fixpoint locks_held (held : bool) (log : list call) : bool :=
  match log with
  | [] => held
  | UtxoForAmount _ (Some _) :: rest => locks_held true rest
  | UnlockUtxo _ :: rest => locks_held false rest
  | _ :: rest => locks_held held rest
  end.

(** A wallet with one unspent output of 10,000 satoshis, whatever is
    asked of it, and a signed size of 141 vbytes. *)
Definition one_utxo (r : reply) : world :=
  mk_world (fun _ amount => if amount <=? 10000 then Some 10000 else None)
           (fun _ _ => 141)
           r.

(** A wallet with one unspent output of 10 coins and the same signed
    size. *)
Definition ten_coins (r : reply) : world :=
  mk_world (fun _ amount => if amount <=? 1000000000 then Some 1000000000 else None)
           (fun _ _ => 141)
           r.

End Transaction.

(** ** The ledger beyond [addTxid] (src/address-manager.js) *)

Module Ledger.

Import Balance.

(** [this.txid[state].filter(([tx]) => tx === key).pop()]: the last
    record of [key] in the bucket, [None] for [undefined]. *)
Definition getTx (state : bucket) (key : string) (b : Balance.t) : option entry :=
  last (records key (txid_of state b)).

(** The sum of the amounts a txid list records. *)
Definition recorded_total (l : list entry) : Z :=
  fold_right (fun e acc => snd e + acc) 0 l.

(** Every bucket amount is the sum of the amounts its list records. *)
Definition consistent (b : Balance.t) : Prop :=
  forall s, amount_of s b = recorded_total (txid_of s b).

(** The value of the [addr] store: [{ in, out, fee }]. *)
Record address := mk_address {
  addr_in : Balance.t;
  addr_out : Balance.t;
  addr_fee : Balance.t
}.

Definition _newAddr : address :=
  mk_address Balance.empty Balance.empty Balance.empty.

(** [x || 0] on an amount. *)
Definition or_zero (x : Z) : Z := if x =? 0 then 0 else x.

(** [new Balance(data.confirmed, data.pending, data.mempool, data.txid)]
    on stored data; the stored [txid] object is truthy and is taken
    over. *)
Definition rebuild (data : Balance.t) : Balance.t :=
  Balance.mk (or_zero (bal_confirmed data)) (or_zero (bal_pending data))
             (or_zero (bal_mempool data))
             (txid_confirmed data) (txid_pending data) (txid_mempool data).

Definition get (addr : string) (store : gmap string address) : option address :=
  match store !! addr with
  | None => None
  | Some data =>
      Some (mk_address (rebuild (addr_in data)) (rebuild (addr_out data))
                       (rebuild (addr_fee data)))
  end.

(** The result is what the method returns and the store it leaves. *)
Definition newAddress (addr : string) (store : gmap string address)
  : address * gmap string address :=
  match get addr store with
  | Some existing => (existing, store)
  | None => (_newAddr, <[addr := _newAddr]> store)
  end.

(** [history.get('txid:' + txid)] *)
Definition _getDbTx (txid : string) (history : gmap string AddressManager.hval)
  : option AddressManager.hval :=
  history !! ("txid:" +:+ txid).

(** [history.get('i:' + 0)] *)
Definition getMempoolTx (history : gmap string AddressManager.hval)
  : option AddressManager.hval :=
  history !! ("i:" +:+ pretty 0).

(** A run of [storeTx] calls. *)
Definition storeTxs (txs : list AddressManager.txview)
           (history : gmap string AddressManager.hval)
  : gmap string AddressManager.hval :=
  fold_left (fun h tx => AddressManager.storeTx tx h) txs history.

(** [opts] of [getTransactions]. *)
Record listing := mk_listing {
  opt_limit : jsnum;
  opt_offset : jsnum
}.

(** Truthiness of a stored value: a view is an object, a height is a
    number. *)
Definition truthy_hval (v : AddressManager.hval) : bool :=
  match v with
  | AddressManager.HTx _ => true
  | AddressManager.HHeight h => negb (h =? 0)
  end.

(** [opts.limit || 1000], [opts.offset || 0] *)
Definition limit_of (opts : listing) : Z :=
  match js_or_num (opt_limit opts) (Some 1000) with
  | Some n => n
  | None => 1000
  end.

Definition offset_of (opts : listing) : Z :=
  match js_or_num (opt_offset opts) (Some 0) with
  | Some n => n
  | None => 0
  end.

(** The callback [getTransactions] hands to [history.entries], on the
    pair of its two mutable variables [results] and [skipped]. The
    elements of [results] are the values the [TxEntry]s are made of. *)
Definition getTransactions_entry (limit offset : Z)
           (acc : list AddressManager.hval * Z)
           (kv : string * AddressManager.hval)
  : list AddressManager.hval * Z :=
  let '(results, skipped) := acc in
  if skipped <? offset then (results, skipped + 1)
  else if limit <=? Z.of_nat (length results) then (results, skipped)
  else if negb (String.prefix "i:" (fst kv)) || negb (truthy_hval (snd kv))
       then (results, skipped)
  else (results ++ [snd kv], skipped).

(** [scan] is the sequence of entries the store passes to the callback
    for the range of the call (the store is a collaborator; the order and
    the range are its business). *)
Definition getTransactions (opts : listing)
           (scan : list (string * AddressManager.hval))
  : list AddressManager.hval :=
  fst (fold_left (getTransactions_entry (limit_of opts) (offset_of opts))
         scan ([], 0)).

(** What the callback lets through once skipping is over. *)
Definition listed (kv : string * AddressManager.hval) : bool :=
  String.prefix "i:" (fst kv) && truthy_hval (snd kv).

End Ledger.

(** ** Block counter: what a restart sees (src/utils.js) *)

Module Restart.

Import BlockCounter.

(** The payload of a [new-block] event is in order: the step is not
    negative, leads from [last] to [current], and [last] is not below
    [floor]. *)
Definition sound (floor : Z) (e : blockinfo) : Prop :=
  0 <= diff e /\ current e = last e + diff e /\ floor <= last e.

End Restart.

(** ** Request cache: the sweeper (electrum.js) *)

Module Sweeper.

Import RequestCache.

(** The callback of the timer in [_startCacheTimer], run over the store
    at clock reading [now]: an entry whose expiry is at or before [now] is
    deleted. The index slot is left as it is. *)
Definition tick (now : Z) (c : RequestCache.t) : RequestCache.t :=
  RequestCache.mk
    (filter (fun kv : string * (tx * Z) => now < snd (snd kv)) (store c))
    (cache_index c) (_cache_expiry c) (_max_cache_size c) (_cache_size c).

(** The key of a [set] call in a run. *)
Definition key_of (call : Z * string * tx) : string := snd (fst call).

End Sweeper.

(** ** Transport: issuing a request (electrum.js) *)

Module Transport.

Import Electrum.

(** [_makeRequest]: [connected] is [this.isConnected()], [id] the fresh
    token ([Date.now() + '-' + random]). [None] is the promise rejected
    with ['not connected']; otherwise the entry is recorded under [id]
    and the payload written (a write that throws is swallowed). *)
Definition _makeRequest (connected : bool) (id method : string)
           (requests : gmap string string) : option (gmap string string) :=
  if negb connected then None
  else Some (<[id := method]> requests).

(** The frames of one socket read, handled in order. *)
Definition handle_all (frames : list (option frame)) (requests : gmap string string)
  : gmap string string * list event :=
  fold_left
    (fun acc data =>
       let '(reqs, evs) := _handleResponse data (fst acc) in
       (reqs, snd acc ++ evs))
    frames (requests, []).

End Transport.

(** ** Builder: a sync manager that keeps its word *)

Module Builder.

Import Transaction.

(** [utxoForAmount] either throws or selects a set worth at least what
    was asked. *)
Definition honest (w : world) : Prop :=
  forall k amount total, utxoForAmount w k amount = Some total -> amount <= total.

(** What a retry of [_generateRawTx] logs. *)
Definition retry_call (c : call) : Prop :=
  match c with
  | UnlockUtxo false => True
  | UtxoForAmount _ (Some _) => True
  | _ => False
  end.

End Builder.

(** ** Provider: assembling a transaction view (electrum.js) *)

Module Provider.

Import Electrum.

Section View.

(** [new Bitcoin(v, 'main')] in base units: the conversion belongs to
    currency.js, which is not part of the sources at hand. *)
Variable to_amount : jsval -> Z.

(** The field [name] of an object literal. *)
Fixpoint assoc (name : string) (fields : list (string * jsval)) : jsval :=
  match fields with
  | [] => JUndefined
  | (k, v) :: rest => if String.eqb k name then v else assoc name rest
  end.

(** [v.name]; [None] is the [TypeError] of reading a property of
    [undefined] or [null]. *)
Definition prop (name : string) (v : jsval) : option jsval :=
  match v with
  | JUndefined | JNull => None
  | JObj fields => Some (assoc name fields)
  | _ => Some JUndefined
  end.

(** [tx.name] for a field kept in the body of a cached transaction. *)
Definition body_field (name : string) (tx : RequestCache.tx) : jsval :=
  match RequestCache.tx_body tx with
  | JObj fields => assoc name fields
  | _ => JUndefined
  end.

(** The receiver of [.map]: anything but an array has no [map]. *)
Definition as_array (v : jsval) : option (list jsval) :=
  match v with
  | JArr items => Some items
  | _ => None
  end.

(** [v[idx]] with a numeric index. *)
Definition element (idx : jsval) (v : jsval) : option jsval :=
  match v with
  | JUndefined | JNull => None
  | JArr items =>
      match idx with
      | JNum n => if n <? 0 then Some JUndefined
                  else Some (nth (Z.to_nat n) items JUndefined)
      | _ => Some JUndefined
      end
  | _ => Some JUndefined
  end.

Definition _getTxAddress (scriptPubKey : jsval) : option jsval :=
  match prop "address" scriptPubKey with
  | None => None
  | Some a => Some (if truthy a then a else JNull)
  end.

(** An entry of [out], or the detail of a spent output. [o_tx_height] is
    the field [tx_height], which only entries of [out] get. *)
Record output := mk_output {
  o_address : jsval;
  o_value : Z;
  o_witness_hex : jsval;
  o_index : jsval;
  o_txid : string;
  o_height : jsnum;
  o_tx_height : option jsnum
}.

Definition _processTxVout (vout : jsval) (tx : RequestCache.tx) : option output :=
  match prop "scriptPubKey" vout with
  | None => None
  | Some spk =>
      match _getTxAddress spk, prop "value" vout, prop "hex" spk, prop "n" vout with
      | Some address, Some value, Some hex, Some n =>
          Some (mk_output address (to_amount value) hex n
                  (RequestCache.tx_txid tx) (RequestCache.tx_height tx) None)
      | _, _, _, _ => None
      end
  end.

(** The callback of [tx.vout.map]: [Some None] is the [null] returned for
    an output without address. *)
Definition output_of (tx : RequestCache.tx) (vout : jsval) : option (option output) :=
  match _processTxVout vout tx with
  | None => None
  | Some newvout =>
      if negb (truthy (o_address newvout)) then Some None
      else Some (Some (mk_output (o_address newvout) (o_value newvout)
                         (o_witness_hex newvout) (o_index newvout)
                         (o_txid newvout) (o_height newvout)
                         (Some (RequestCache.tx_height tx))))
  end.

(** An entry of [in]: the synthesized coinbase input, known by the
    [coinbase] field it is built from, or a spent output with the three
    [prev_] fields. The reward is [None] for [NaN]. *)
Inductive input :=
| Coinbase (coinbase : jsval) (prev_tx_height : jsnum) (value : option Q)
| Spend (detail : output) (prev_txid prev_index : jsval) (prev_tx_height : jsnum).

(** [tx.height - 1] *)
Definition height_before (tx : RequestCache.tx) : jsnum :=
  match RequestCache.tx_height tx with
  | Some h => Some (h - 1)
  | None => None
  end.

(** The callback of [tx.vin.map] for one input, on the provider it finds.
    A [vin] whose [txid] is no string ends in a request the server
    rejects. *)
Definition input_of (server : string -> option RequestCache.tx) (now : Z)
           (opts_cache : jsval) (tx : RequestCache.tx) (vin : jsval) (p : Electrum.t)
  : option (input * Electrum.t) :=
  match prop "coinbase" vin with
  | None => None
  | Some c =>
      if truthy c then
        Some (Coinbase c (height_before tx)
                (match height_before tx with
                 | Some h => Some (getBlockReward h)
                 | None => None
                 end), p)
      else
        match prop "txid" vin, prop "vout" vin with
        | Some (JStr prev), Some idx =>
            match _txGet server now prev opts_cache p with
            | (Some txDetail, p', _) =>
                match element idx (body_field "vout" txDetail) with
                | None => None
                | Some item =>
                    match _processTxVout item tx with
                    | None => None
                    | Some newvin =>
                        Some (Spend newvin (JStr prev) idx
                                (RequestCache.tx_height txDetail), p')
                    end
                end
            | (None, _, _) => None
            end
        | _, _ => None
        end
  end.

(** The inputs are resolved here one after the other. [Promise.all] lets
    their requests overlap; the views they get are the same either way,
    since a txid is answered alike whenever it is asked. *)
Fixpoint inputs_of (server : string -> option RequestCache.tx) (now : Z)
         (opts_cache : jsval) (tx : RequestCache.tx) (vins : list jsval)
         (p : Electrum.t) : option (list input * Electrum.t) :=
  match vins with
  | [] => Some ([], p)
  | vin :: rest =>
      match input_of server now opts_cache tx vin p with
      | None => None
      | Some (i, p1) =>
          match inputs_of server now opts_cache tx rest p1 with
          | None => None
          | Some (others, p2) => Some (i :: others, p2)
          end
      end
  end.

(** [totalOut] and [totalIn]. The coinbase branch returns before
    [totalIn] is added to. *)
Definition total_out (outs : list output) : Z :=
  fold_right (fun o acc => o_value o + acc) 0 outs.

Definition spent (i : input) : Z :=
  match i with
  | Coinbase _ _ _ => 0
  | Spend detail _ _ _ => o_value detail
  end.

Definition total_in (ins : list input) : Z :=
  fold_right (fun i acc => spent i + acc) 0 ins.

(** [if (txDetail.height === 0) data.unconfirmed_inputs.push(vin.txid)] *)
Definition unconfirmed (i : input) : option jsval :=
  match i with
  | Spend _ prev _ (Some 0) => Some prev
  | _ => None
  end.

Definition standard (o : option output) : bool :=
  match o with Some _ => true | None => false end.

Record view := mk_view {
  v_txid : string;
  v_height : jsnum;
  v_out : list output;
  v_in : list input;
  v_unconfirmed_inputs : list jsval;
  v_std_out : list bool;
  v_std_in : list bool;
  v_fee : Z
}.

(** [None]: the promise is rejected (a failed request or a [TypeError]
    on a body that lacks a field). Both branches of the input callback
    push [false] on [std_in]. *)
Definition getTransaction (server : string -> option RequestCache.tx) (now : Z)
           (txid : string) (opts_cache : jsval) (p : Electrum.t)
  : option (view * Electrum.t) :=
  match _txGet server now txid opts_cache p with
  | (None, _, _) => None
  | (Some tx, p1, _) =>
      match as_array (body_field "vout" tx) with
      | None => None
      | Some vouts =>
          match mapM (output_of tx) vouts with
          | None => None
          | Some mapped =>
              match as_array (body_field "vin" tx) with
              | None => None
              | Some vins =>
                  match inputs_of server now opts_cache tx vins p1 with
                  | None => None
                  | Some (ins, p2) =>
                      let out := omap id mapped in
                      let totalOut := total_out out in
                      let totalIn := total_in ins in
                      Some (mk_view txid (RequestCache.tx_height tx) out ins
                              (omap unconfirmed ins)
                              (map standard mapped)
                              (map (fun _ => false) ins)
                              (if totalIn =? 0 then totalIn
                               else totalIn - totalOut),
                            p2)
                  end
              end
          end
      end
  end.

End View.

(** A coinbase transaction mined in block 101 that pays 50 coins to one
    address and carries one output without address, as a server at tip
    102 reports it; amounts are read as whole coins. *)
Definition coinbase_body : jsval :=
  JObj [("vin"%string, JArr [JObj [("coinbase"%string, JStr "0165")]]);
        ("vout"%string,
         JArr [JObj [("value"%string, JNum 50); ("n"%string, JNum 0);
                     ("scriptPubKey"%string,
                      JObj [("address"%string, JStr "bcrt1q");
                            ("hex"%string, JStr "0014")])];
               JObj [("value"%string, JNum 0); ("n"%string, JNum 1);
                     ("scriptPubKey"%string,
                      JObj [("hex"%string, JStr "6a24")])]])].

Definition coinbase_server (txid : string) : option RequestCache.tx :=
  Some (RequestCache.mk_tx txid (Some 2) None None coinbase_body).

Definition whole_coins (v : jsval) : Z :=
  match v with JNum n => n * 100000000 | _ => 0 end.

End Provider.

(** * Facts *)

(** ** Balance: facts *)

Section BalanceFacts.
Import Balance.

(** A transaction seen in the mempool, then confirmed. *)
Example addTxid_moves :
  addTxid confirmed "t" 10 (addTxid mempool "t" 10 Balance.empty)
  = Balance.mk 10 0 0 [("t"%string, 10)] [] [].
Proof. reflexivity. Qed.

Lemma filter_txid_kept state txid amount l b :
  fst (filter_txid state txid amount l b) = without txid l.
Proof.
  revert b. induction l as [|e rest IH]; intros b; simpl; [reflexivity|].
  destruct (String.eqb (fst e) txid); simpl.
  - apply IH.
  - specialize (IH b).
    destruct (filter_txid state txid amount rest b) as [kept b'].
    simpl in *. now rewrite IH.
Qed.

Lemma filter_txid_object state txid amount l b :
  snd (filter_txid state txid amount l b)
  = set_amount state
      (amount_of state b - amount * Z.of_nat (length (records txid l))) b.
Proof.
  revert b. induction l as [|e rest IH]; intros b; simpl.
  - destruct state, b; simpl; f_equal; lia.
  - destruct (String.eqb (fst e) txid); simpl.
    + rewrite IH. destruct state, b; simpl; f_equal; lia.
    + specialize (IH b).
      destruct (filter_txid state txid amount rest b) as [kept b'].
      simpl in *. exact IH.
Qed.

Lemma sweep_closed txid amount b s :
  sweep txid amount b s
  = set_txid s (without txid (txid_of s b))
      (set_amount s
         (amount_of s b - amount * Z.of_nat (length (records txid (txid_of s b)))) b).
Proof.
  unfold sweep.
  pose proof (filter_txid_kept s txid amount (txid_of s b) b) as Hk.
  pose proof (filter_txid_object s txid amount (txid_of s b) b) as Ho.
  destruct (filter_txid s txid amount (txid_of s b) b) as [kept b'].
  simpl in *. now subst.
Qed.

Lemma addTxid_closed_form state txid amount b :
  addTxid state txid amount b = addTxid_closed state txid amount b.
Proof.
  unfold addTxid, buckets. simpl fold_left.
  rewrite !sweep_closed.
  destruct b as [c p m lc lp lm].
  destruct state; unfold addTxid_closed, code_bucket; simpl;
    rewrite ?app_nil_r; f_equal; lia.
Qed.

Lemma records_app txid l1 l2 :
  records txid (l1 ++ l2) = records txid l1 ++ records txid l2.
Proof. apply List.filter_app. Qed.

Lemma without_app txid l1 l2 :
  without txid (l1 ++ l2) = without txid l1 ++ without txid l2.
Proof. apply List.filter_app. Qed.

Lemma records_without txid l : records txid (without txid l) = [].
Proof.
  induction l as [|e rest IH]; simpl; [reflexivity|].
  destruct (String.eqb (fst e) txid) eqn:E; simpl; [exact IH|].
  now rewrite E.
Qed.

Lemma without_without txid l : without txid (without txid l) = without txid l.
Proof.
  induction l as [|e rest IH]; simpl; [reflexivity|].
  destruct (String.eqb (fst e) txid) eqn:E; simpl; [exact IH|].
  rewrite E. simpl. now rewrite IH.
Qed.

Lemma records_other txid txid' l :
  txid' <> txid -> records txid' (without txid l) = records txid' l.
Proof.
  intros Hne. induction l as [|e rest IH]; simpl; [reflexivity|].
  destruct (String.eqb (fst e) txid) eqn:E; simpl.
  - apply String.eqb_eq in E.
    destruct (String.eqb (fst e) txid') eqn:E'; [|exact IH].
    apply String.eqb_eq in E'. congruence.
  - now rewrite IH.
Qed.

Lemma records_new txid amount : records txid [(txid, amount)] = [(txid, amount)].
Proof. unfold records. simpl. now rewrite String.eqb_refl. Qed.

Lemma without_new txid amount : without txid [(txid, amount)] = [].
Proof. unfold without. simpl. now rewrite String.eqb_refl. Qed.

Lemma records_new_other txid txid' amount :
  txid' <> txid -> records txid' [(txid, amount)] = [].
Proof.
  intros Hne. unfold records. simpl.
  destruct (String.eqb txid txid') eqn:E; [|reflexivity].
  apply String.eqb_eq in E. congruence.
Qed.

(** What a call does to the records of its txid in bucket [s]. *)
Lemma records_after state txid amount b s :
  records txid (txid_of s (addTxid state txid amount b))
  = if bucket_eqb s state then [(txid, amount)] else [].
Proof.
  rewrite addTxid_closed_form.
  destruct s, state; simpl; rewrite records_app, records_without;
    simpl; rewrite ?String.eqb_refl; reflexivity.
Qed.

(** Records of another txid are left alone. *)
Lemma records_after_other state txid amount b s txid' :
  txid' <> txid ->
  records txid' (txid_of s (addTxid state txid amount b))
  = records txid' (txid_of s b).
Proof.
  intros Hne. rewrite addTxid_closed_form.
  destruct s, state; simpl; rewrite records_app, records_other by assumption;
    rewrite ?(records_new_other _ _ _ Hne), ?app_nil_r; reflexivity.
Qed.

(** After a call its txid is recorded once, in the bucket of the call. *)
Lemma occurrences_after state txid amount b :
  occurrences txid (addTxid state txid amount b) = 1%nat.
Proof.
  unfold occurrences.
  change (txid_confirmed ?x) with (txid_of confirmed x).
  change (txid_pending ?x) with (txid_of pending x).
  change (txid_mempool ?x) with (txid_of mempool x).
  rewrite !records_after. destruct state; reflexivity.
Qed.

Lemma occurrences_after_other state txid amount b txid' :
  txid' <> txid ->
  occurrences txid' (addTxid state txid amount b) = occurrences txid' b.
Proof.
  intros Hne. unfold occurrences.
  change (txid_confirmed ?x) with (txid_of confirmed x).
  change (txid_pending ?x) with (txid_of pending x).
  change (txid_mempool ?x) with (txid_of mempool x).
  now rewrite !records_after_other by assumption.
Qed.

(** No state built by [addTxid] from a fresh [Balance] records a txid
    twice. *)
Lemma reachable_recorded_once b :
  reachable b -> forall txid, (occurrences txid b <= 1)%nat.
Proof.
  induction 1 as [|state t0 amount b Hb IH]; intros txid.
  - unfold occurrences. simpl. lia.
  - destruct (String.eqb txid t0) eqn:E.
    + apply String.eqb_eq in E. subst. rewrite occurrences_after. lia.
    + apply String.eqb_neq in E.
      rewrite occurrences_after_other by assumption. apply IH.
Qed.

(** The books of one call: each record of the txid takes [amount] off the
    consolidated balance, the new record puts it back once. *)
Lemma consolidated_after state txid amount b :
  consolidated (addTxid state txid amount b)
  = consolidated b - amount * Z.of_nat (occurrences txid b) + amount.
Proof.
  rewrite addTxid_closed_form. unfold consolidated, occurrences.
  destruct b as [c p m lc lp lm]. destruct state; simpl; lia.
Qed.

Lemma addTxid_closed_idem state txid amount b :
  addTxid_closed state txid amount (addTxid_closed state txid amount b)
  = addTxid_closed state txid amount b.
Proof.
  destruct b as [c p m lc lp lm].
  destruct state; unfold addTxid_closed, code_bucket; simpl;
    rewrite ?app_nil_r, ?records_app, ?without_app, ?records_without,
      ?without_without, ?records_new, ?without_new, ?app_nil_r;
    simpl; f_equal; lia.
Qed.

Lemma recorded_sum_same txid amount l :
  (forall a0, In (txid, a0) l -> a0 = amount) ->
  recorded_sum txid l = amount * Z.of_nat (length (records txid l)).
Proof.
  unfold recorded_sum.
  induction l as [|[t0 a0] rest IH]; intros Hall; simpl; [lia|].
  destruct (String.eqb t0 txid) eqn:E; simpl.
  - apply String.eqb_eq in E. subst t0.
    rewrite (Hall a0) by (left; reflexivity).
    rewrite IH by (intros a1 H1; apply Hall; right; exact H1). lia.
  - apply IH. intros a1 H1. apply Hall. right. exact H1.
Qed.

Lemma records_length_in txid amount l :
  In (txid, amount) l -> (1 <= length (records txid l))%nat.
Proof.
  induction l as [|e rest IH]; intros Hin; simpl in *; [contradiction|].
  destruct Hin as [-> | Hin]; simpl.
  - rewrite String.eqb_refl. simpl. lia.
  - destruct (String.eqb (fst e) txid); simpl; specialize (IH Hin); lia.
Qed.

Lemma without_none txid l :
  length (records txid l) = 0%nat -> without txid l = l.
Proof.
  induction l as [|e rest IH]; simpl; [reflexivity|].
  destruct (String.eqb (fst e) txid); simpl; intros H; [lia|].
  now rewrite IH.
Qed.

(** A txid recorded in the mempool list and recorded once overall is
    recorded nowhere else. *)
Lemma only_in_mempool txid amount b :
  In (txid, amount) (txid_mempool b) -> occurrences txid b = 1%nat ->
  length (records txid (txid_confirmed b)) = 0%nat
  /\ length (records txid (txid_pending b)) = 0%nat
  /\ length (records txid (txid_mempool b)) = 1%nat.
Proof.
  intros Hin Hocc. apply records_length_in in Hin.
  unfold occurrences in Hocc. lia.
Qed.

(** C2, as amended. When txid [t] is recorded in the mempool bucket with
    amount [a] and that is its only record in the three lists, then
    [addTxid('confirmed', t, a)] leaves confirmed + pending + mempool
    unchanged: [a] leaves the mempool amount and enters the confirmed
    amount, the pending amount stays, the record leaves the mempool list
    and is appended to the confirmed list. *)
Theorem addTxid_confirmed_keeps_total (b : Balance.t) (t : string) (a : Z) :
  In (t, a) (txid_mempool b) ->
  occurrences t b = 1%nat ->
  consolidated (addTxid confirmed t a b) = consolidated b
  /\ bal_mempool (addTxid confirmed t a b) = bal_mempool b - a
  /\ bal_confirmed (addTxid confirmed t a b) = bal_confirmed b + a
  /\ bal_pending (addTxid confirmed t a b) = bal_pending b
  /\ txid_confirmed (addTxid confirmed t a b) = txid_confirmed b ++ [(t, a)]
  /\ txid_pending (addTxid confirmed t a b) = txid_pending b
  /\ txid_mempool (addTxid confirmed t a b) = without t (txid_mempool b).
Proof.
  intros Hin Hocc.
  destruct (only_in_mempool t a b Hin Hocc) as (Hc & Hp & Hm).
  split.
  { rewrite consolidated_after, Hocc. lia. }
  rewrite addTxid_closed_form. unfold addTxid_closed, code_bucket. simpl.
  rewrite Hc, Hp, Hm, app_nil_r.
  rewrite (without_none t (txid_confirmed b) Hc).
  rewrite (without_none t (txid_pending b) Hp).
  repeat split; try reflexivity; try lia. apply app_nil_r.
Qed.

(** The move of C2 at a mempool record made by [addTxid] itself. *)
Lemma addTxid_confirmed_keeps_total_witness :
  let b := addTxid mempool "t" 10 Balance.empty in
  In ("t"%string, 10) (txid_mempool b)
  /\ occurrences "t" b = 1%nat
  /\ consolidated (addTxid confirmed "t" 10 b) = consolidated b.
Proof.
  intros b.
  assert (In ("t"%string, 10) (txid_mempool b)) as Hin by (left; reflexivity).
  assert (occurrences "t" b = 1%nat) as Hocc by reflexivity.
  split; [exact Hin|]. split; [exact Hocc|].
  exact (proj1 (addTxid_confirmed_keeps_total b "t" 10 Hin Hocc)).
Defined.

(** C2 as stated fails where the mempool list records the txid twice:
    both records are removed, each takes the amount off the mempool
    bucket, and the amount is added to the confirmed bucket once. *)
Lemma addTxid_confirmed_loses_duplicate :
  In ("t"%string, 10) (txid_mempool twice_in_mempool)
  /\ consolidated twice_in_mempool = 20
  /\ consolidated (addTxid confirmed "t" 10 twice_in_mempool) = 10
  /\ consolidated (addTxid confirmed "t" 10 twice_in_mempool)
     <> consolidated twice_in_mempool.
Proof.
  split; [left; reflexivity|]. split; [reflexivity|]. split; [reflexivity|].
  discriminate.
Qed.

(** In every state built by [addTxid] from a fresh [Balance] the move
    from mempool to confirmed keeps the total. *)
Lemma reachable_move_keeps_total b t a :
  reachable b -> In (t, a) (txid_mempool b) ->
  consolidated (addTxid confirmed t a b) = consolidated b.
Proof.
  intros Hr Hin. rewrite consolidated_after.
  pose proof (reachable_recorded_once b Hr t) as Hle.
  pose proof (records_length_in t a _ Hin) as Hge.
  assert (occurrences t b = 1%nat) as -> by (unfold occurrences in *; lia).
  lia.
Qed.

(** What does hold of [addTxid] in every state: a second
    [addTxid(b, t, a)] changes nothing -- amounts and lists. The call
    removes every prior record of [t] from every bucket, keeps the other
    records in order and appends [(t, a)] to bucket [b]; and when the
    prior records of [t] all carry the amount [a], the amounts are as the
    specification words them: each removed record's amount is subtracted
    from its bucket and [a] is added to [b]. *)
Theorem addTxid_idempotent (b : Balance.t) (state : bucket) (t : string) (a : Z) :
  addTxid state t a (addTxid state t a b) = addTxid state t a b
  /\ (forall s, txid_of s (addTxid state t a b)
                = without t (txid_of s b)
                    ++ (if bucket_eqb s state then [(t, a)] else []))
  /\ ((forall s a0, In (t, a0) (txid_of s b) -> a0 = a) ->
      addTxid state t a b = addTxid_spec state t a b).
Proof.
  split; [|split].
  - rewrite !addTxid_closed_form. apply addTxid_closed_idem.
  - intros s. rewrite addTxid_closed_form. destruct s; reflexivity.
  - intros Hsame. rewrite addTxid_closed_form.
    unfold addTxid_closed, addTxid_spec, code_bucket, spec_bucket. simpl.
    rewrite (recorded_sum_same t a (txid_confirmed b))
      by (intros a0; apply (Hsame confirmed)).
    rewrite (recorded_sum_same t a (txid_pending b))
      by (intros a0; apply (Hsame pending)).
    rewrite (recorded_sum_same t a (txid_mempool b))
      by (intros a0; apply (Hsame mempool)).
    reflexivity.
Qed.

(** A 5 satoshi mempool record that is confirmed with 5. *)
Lemma addTxid_idempotent_witness :
  addTxid confirmed "t" 5 (addTxid confirmed "t" 5 five_in_mempool)
  = addTxid confirmed "t" 5 five_in_mempool
  /\ addTxid confirmed "t" 5 five_in_mempool
     = addTxid_spec confirmed "t" 5 five_in_mempool.
Proof.
  destruct (addTxid_idempotent five_in_mempool confirmed "t" 5) as (H1 & _ & H3).
  split; [exact H1|].
  apply H3. intros s a0 Hin.
  destruct s; simpl in Hin; try contradiction.
  destruct Hin as [Heq | []]. congruence.
Defined.

(** C3 on the code. A fresh [Balance] takes [addTxid('mempool', t, 5)]
    and then [addTxid('confirmed', t, 7)]. The second call finds the
    record [(t, 5)] in the mempool bucket, removes it, and takes 7 -- the
    amount of the call, not the 5 of the record -- off that bucket: the
    mempool amount ends at -2 where the rule of the specification gives 0,
    and the consolidated balance at 5 where the only record left is worth
    7. The call repeated changes nothing further. *)
Theorem addTxid_subtracts_call_amount :
  let seen := addTxid mempool "t" 5 Balance.empty in
  seen = five_in_mempool
  /\ reachable (addTxid confirmed "t" 7 seen)
  /\ bal_mempool (addTxid confirmed "t" 7 seen) = -2
  /\ bal_mempool (addTxid_spec confirmed "t" 7 seen) = 0
  /\ txid_confirmed (addTxid confirmed "t" 7 seen) = [("t"%string, 7)]
  /\ txid_mempool (addTxid confirmed "t" 7 seen) = []
  /\ consolidated (addTxid confirmed "t" 7 seen) = 5
  /\ addTxid confirmed "t" 7 seen <> addTxid_spec confirmed "t" 7 seen
  /\ addTxid confirmed "t" 7 (addTxid confirmed "t" 7 seen)
     = addTxid confirmed "t" 7 seen.
Proof.
  intros seen.
  split; [reflexivity|]. split; [repeat constructor|].
  split; [reflexivity|]. split; [reflexivity|]. split; [reflexivity|].
  split; [reflexivity|]. split; [reflexivity|].
  split; [intros H; discriminate H|reflexivity].
Qed.

End BalanceFacts.

(** ** AddressManager: facts *)

Section AddressManagerFacts.
Import AddressManager.

Lemma list_ascii_of_append (s1 s2 : string) :
  String.list_ascii_of_string (s1 +:+ s2)
  = String.list_ascii_of_string s1 ++ String.list_ascii_of_string s2.
Proof. induction s1 as [|c s1 IH]; simpl; [reflexivity|]. now rewrite IH. Qed.

Lemma append_cancel_r (s1 s2 s : string) : s1 +:+ s = s2 +:+ s -> s1 = s2.
Proof.
  intros H. apply (f_equal String.list_ascii_of_string) in H.
  rewrite !list_ascii_of_append in H. apply app_inv_tail in H.
  rewrite <- (String.string_of_list_ascii_of_string s1).
  rewrite <- (String.string_of_list_ascii_of_string s2). now rewrite H.
Qed.

(** Two index keys of one txid are the same key only at one height. *)
Lemma ikey_height_inj h1 h2 txid : ikey h1 txid = ikey h2 txid -> h1 = h2.
Proof.
  unfold ikey. intros H.
  apply (inj (String.app "i:")) in H.
  apply append_cancel_r in H.
  now apply (inj pretty) in H.
Qed.

Lemma txkey_not_ikey h txid txid' : txkey txid <> ikey h txid'.
Proof. unfold txkey, ikey. simpl. discriminate. Qed.

(** The index right after the two [delete]s of [storeTx]. *)
Lemma storeTx_deletes_first tx history :
  exists cleaned : gmap string hval,
    storeTx tx history
    = <[txkey (tv_txid tx) := HHeight (tv_height tx)]>
        (<[ikey (tv_height tx) (tv_txid tx) := HTx tx]> cleaned)
    /\ cleaned !! ikey 0 (tv_txid tx) = None
    /\ cleaned !! ikey (tv_height tx - 1) (tv_txid tx) = None.
Proof.
  eexists. split; [reflexivity|]. split.
  - destruct (decide (ikey (tv_height tx - 1) (tv_txid tx) = ikey 0 (tv_txid tx)))
      as [E|E].
    + rewrite E. apply lookup_delete_eq.
    + rewrite lookup_delete_ne by exact E. apply lookup_delete_eq.
  - apply lookup_delete_eq.
Qed.

(** C7. After [storeTx(tx)] with [tx.height = h]: [getHeight(tx.txid)]
    reads [h]; the key [i:h:txid] holds [tx]; the key [i:(h-1):txid] is
    vacant; the key [i:0:txid] is vacant unless [h = 0], when it is the
    primary key itself and holds [tx]. Both keys were vacated before the
    new entries were written. *)
Theorem storeTx_roundtrip (tx : txview) (history : gmap string hval) :
  getHeight (tv_txid tx) (storeTx tx history) = Some (HHeight (tv_height tx))
  /\ storeTx tx history !! ikey (tv_height tx) (tv_txid tx) = Some (HTx tx)
  /\ storeTx tx history !! ikey (tv_height tx - 1) (tv_txid tx) = None
  /\ storeTx tx history !! ikey 0 (tv_txid tx)
     = (if tv_height tx =? 0 then Some (HTx tx) else None)
  /\ exists cleaned : gmap string hval,
       storeTx tx history
       = <[txkey (tv_txid tx) := HHeight (tv_height tx)]>
           (<[ikey (tv_height tx) (tv_txid tx) := HTx tx]> cleaned)
       /\ cleaned !! ikey 0 (tv_txid tx) = None
       /\ cleaned !! ikey (tv_height tx - 1) (tv_txid tx) = None.
Proof.
  destruct tx as [txid h rest]. simpl.
  split; [|split; [|split; [|split]]].
  - unfold getHeight, storeTx. simpl. apply lookup_insert_eq.
  - unfold storeTx. simpl.
    rewrite lookup_insert_ne by apply txkey_not_ikey.
    apply lookup_insert_eq.
  - unfold storeTx. simpl.
    rewrite lookup_insert_ne by apply txkey_not_ikey.
    rewrite lookup_insert_ne
      by (intros E; apply ikey_height_inj in E; lia).
    apply lookup_delete_eq.
  - unfold storeTx. simpl.
    rewrite lookup_insert_ne by apply txkey_not_ikey.
    destruct (Z.eqb_spec h 0) as [->|Hne].
    + apply lookup_insert_eq.
    + rewrite lookup_insert_ne
        by (intros E; apply ikey_height_inj in E; lia).
      destruct (decide (ikey (h - 1) txid = ikey 0 txid)) as [E|E].
      * rewrite E. apply lookup_delete_eq.
      * rewrite lookup_delete_ne by exact E. apply lookup_delete_eq.
  - apply (storeTx_deletes_first (mk_txview txid h rest) history).
Qed.

(** A mempool view that confirms at height 7: the mempool key goes. *)
Example storeTx_moves :
  let seen := storeTx (mk_txview "ab" 0 JNull) ∅ in
  let mined := storeTx (mk_txview "ab" 7 JNull) seen in
  seen !! "i:0:ab"%string = Some (HTx (mk_txview "ab" 0 JNull))
  /\ mined !! "i:0:ab"%string = None
  /\ mined !! "i:7:ab"%string = Some (HTx (mk_txview "ab" 7 JNull))
  /\ mined !! "tx:ab"%string = Some (HHeight 7).
Proof. vm_compute. repeat split. Qed.

End AddressManagerFacts.

(** ** BlockCounter: facts *)

Section BlockCounterFacts.
Import BlockCounter.

Lemma setBlock_block_le height c : block c <= block (snd (setBlock height c)).
Proof.
  unfold setBlock. destruct (Z.ltb_spec (height - block c) 0); simpl; lia.
Qed.

Lemma setBlocks_block_le heights c : block c <= block (setBlocks heights c).
Proof.
  revert c. induction heights as [|h rest IH]; intros c; simpl; [lia|].
  unfold setBlocks in *. simpl. specialize (IH (snd (setBlock h c))).
  pose proof (setBlock_block_le h c). lia.
Qed.

(** C8. A push below the current block is refused: the counter, the
    persisted [latest_block] and the event log stay as they are. A push
    at or above the current block -- also right after a refused one --
    sets the block to that height and persists it. Over any run of
    pushes the block never decreases. *)
Theorem setBlock_monotone (c : BlockCounter.t) (low high : Z) :
  low < block c ->
  block c <= high ->
  setBlock low c = (None, c)
  /\ fst (setBlock high c) = Some true
  /\ block (snd (setBlock high c)) = high
  /\ state (snd (setBlock high c)) !! "latest_block"%string = Some high
  /\ snd (setBlock high (snd (setBlock low c))) = snd (setBlock high c)
  /\ (forall heights, block c <= block (setBlocks heights c)).
Proof.
  intros Hlow Hhigh.
  assert (setBlock low c = (None, c)) as Hrefused.
  { unfold setBlock. destruct (Z.ltb_spec (low - block c) 0); [reflexivity|lia]. }
  split; [exact Hrefused|].
  rewrite Hrefused. simpl.
  unfold setBlock. destruct (Z.ltb_spec (high - block c) 0); [lia|]. simpl.
  split; [reflexivity|]. split; [reflexivity|].
  split; [unfold setLatestBlock; apply lookup_insert_eq|].
  split; [reflexivity|].
  intros heights. apply setBlocks_block_le.
Qed.

(** The scenario of the specification: tip 100, a push of 99, then 101. *)
Lemma setBlock_monotone_witness :
  let c := BlockCounter.mk 100 (setLatestBlock 100 ∅) [] in
  99 < block c /\ block c <= 101
  /\ setBlock 99 c = (None, c)
  /\ block (snd (setBlock 101 (snd (setBlock 99 c)))) = 101.
Proof.
  intros c.
  assert (99 < block c) as Hlow by (simpl; lia).
  assert (block c <= 101) as Hhigh by (simpl; lia).
  destruct (setBlock_monotone c 99 101 Hlow Hhigh) as (H1 & _ & H3 & _ & H5 & _).
  split; [exact Hlow|]. split; [exact Hhigh|]. split; [exact H1|].
  rewrite H5. exact H3.
Defined.

End BlockCounterFacts.

(** ** RequestCache: facts *)

Section RequestCacheFacts.
Import RequestCache.

(** The capacity test of [set] compares with [undefined] and is never
    true: [_removeOldest] does not run. *)
Lemma set_unfolded now key value c :
  set now key value c
  = RequestCache.mk
      (<[key := match tx_expiry value with
                | Some e => if e =? 0 then (value, now + _cache_expiry c)
                            else (value, e)
                | None => (value, now + _cache_expiry c)
                end]> (store c))
      (Some (_getCacheIndex c ++ [key]))
      (_cache_expiry c) (_max_cache_size c) (_cache_size c).
Proof. reflexivity. Qed.

Lemma get_set_same now key value c : get key (set now key value c) = Some value.
Proof.
  rewrite set_unfolded. unfold get. simpl. rewrite lookup_insert_eq.
  destruct (tx_expiry value) as [e|]; [destruct (e =? 0)|]; reflexivity.
Qed.

(** Whatever is cached stays cached across [set]. *)
Lemma set_keeps now key value c k :
  is_Some (store c !! k) -> is_Some (store (set now key value c) !! k).
Proof.
  intros Hk. rewrite set_unfolded. simpl.
  destruct (decide (key = k)) as [->|Hne].
  - rewrite lookup_insert_eq. eauto.
  - now rewrite lookup_insert_ne.
Qed.

Lemma set_fresh now key value c :
  store c !! key = None -> entries (set now key value c) = S (entries c).
Proof.
  intros Hk. rewrite set_unfolded. unfold entries. simpl.
  now apply map_size_insert_None.
Qed.

Lemma set_other now key value c k :
  k <> key -> store (set now key value c) !! k = store c !! k.
Proof. intros Hne. rewrite set_unfolded. simpl. now apply lookup_insert_ne. Qed.

Lemma set_max now key value c :
  _max_cache_size (set now key value c) = _max_cache_size c.
Proof. reflexivity. Qed.

(** A run of [set]s on keys that are new and pairwise distinct caches
    one more entry per call, without bound. *)
Lemma sets_entries calls c :
  NoDup (map (fun call => snd (fst call)) calls) ->
  (forall call, In call calls -> store c !! snd (fst call) = None) ->
  entries (sets calls c) = (entries c + length calls)%nat
  /\ _max_cache_size (sets calls c) = _max_cache_size c.
Proof.
  revert c. induction calls as [|[[now key] value] rest IH]; intros c Hnd Hfresh.
  - simpl. split; [lia|reflexivity].
  - simpl in Hnd. apply NoDup_cons in Hnd as [Hnotin Hnd].
    change (sets (((now, key), value) :: rest) c)
      with (sets rest (set now key value c)).
    destruct (IH (set now key value c) Hnd) as [He Hm].
    + intros call Hin. rewrite set_other.
      * apply Hfresh. right. exact Hin.
      * intros E. apply Hnotin. rewrite <- E.
        apply list_elem_of_In. apply in_map_iff. exists call. split; [reflexivity|exact Hin].
    + rewrite He, Hm, set_fresh.
      * simpl. split; [lia|reflexivity].
      * apply (Hfresh ((now, key), value)). left. reflexivity.
Qed.

(** Whatever the configuration, [n] calls of [set] on distinct keys leave
    [n] entries in a cache that started empty. *)
Lemma fresh_calls_entries cfg n :
  entries (sets (fresh_calls n) (RequestCache.new cfg ∅ None)) = n
  /\ _max_cache_size (sets (fresh_calls n) (RequestCache.new cfg ∅ None))
     = or_default (max_cache_size cfg) 10000.
Proof.
  destruct (sets_entries (fresh_calls n) (RequestCache.new cfg ∅ None)) as [He Hm].
  - unfold fresh_calls. rewrite map_map. simpl.
    apply (NoDup_fmap_2 (fun i : nat => pretty i)). apply NoDup_seq.
  - intros call _. apply lookup_empty.
  - rewrite He, Hm. unfold fresh_calls, entries. simpl.
    rewrite map_size_empty, length_map, length_seq. split; reflexivity.
Qed.

(** C4 on the code: a cache configured for at most two entries holds
    three after three [set]s; the index lists all three keys, the oldest
    is still served and the size counter still reads 0. *)
Theorem set_exceeds_max_cache_size :
  let c0 := RequestCache.new (mk_config None (Some 2)) ∅ None in
  let c := sets [(1, "a"%string, sample "a");
                 (2, "b"%string, sample "b");
                 (3, "c"%string, sample "c")] c0 in
  _max_cache_size c = 2
  /\ entries c = 3%nat
  /\ _getCacheIndex c = ["a"%string; "b"%string; "c"%string]
  /\ get "a"%string c = Some (sample "a")
  /\ _cache_size c = 0.
Proof.
  intros c0 c.
  destruct (sets_entries
              [(1, "a"%string, sample "a");
               (2, "b"%string, sample "b");
               (3, "c"%string, sample "c")] c0) as [He Hm].
  - simpl. repeat (apply NoDup_cons_2; [rewrite ?not_elem_of_cons; repeat split; try discriminate; apply not_elem_of_nil|]). apply NoDup_nil_2.
  - intros call _. apply lookup_empty.
  - split; [exact Hm|]. split; [exact He|].
    split; [reflexivity|]. split; [|reflexivity].
    unfold c, sets. simpl fold_left.
    unfold get. rewrite !set_other by discriminate.
    fold (get "a"%string (set 1 "a" (sample "a") c0)).
    apply get_set_same.
Qed.

End RequestCacheFacts.

(** ** Electrum: facts *)

Section ElectrumFacts.
Import Electrum.

Lemma halvings_nonneg height : 0 <= height -> 0 <= height / 210000.
Proof. intros H. apply Z.div_pos; lia. Qed.

Lemma reward_as_fraction (k : Z) :
  0 <= k ->
  (inject_Z 50 * inject_Z 100000000 / Qpower (inject_Z 2) k
   == 5000000000 # Z.to_pos (2 ^ k))%Q.
Proof.
  intros Hk. rewrite <- Zpower_Qpower by exact Hk.
  assert (0 < 2 ^ k) as Hpos by (apply Z.pow_pos_nonneg; lia).
  destruct (2 ^ k) as [|p|p] eqn:E; try lia.
  unfold Qeq, Qdiv, Qmult, Qinv, inject_Z. simpl. lia.
Qed.

(** C9. For every height [h >= 0] the reward is 5,000,000,000 satoshis
    divided by 2 to the power [floor(h / 210,000)], as an exact fraction;
    it is 5,000,000,000 at height 0, 2,500,000,000 at height 210,000 and
    625,000,000 at height 630,000. *)
Theorem getBlockReward_halved (height : Z) :
  0 <= height ->
  (getBlockReward height == 5000000000 # Z.to_pos (2 ^ (height / 210000)))%Q
  /\ (getBlockReward height * inject_Z (2 ^ (height / 210000))
      == inject_Z 5000000000)%Q
  /\ (getBlockReward 0 == inject_Z 5000000000)%Q
  /\ (getBlockReward 210000 == inject_Z 2500000000)%Q
  /\ (getBlockReward 630000 == inject_Z 625000000)%Q.
Proof.
  intros Hh. pose proof (halvings_nonneg height Hh) as Hk.
  assert (getBlockReward height == 5000000000 # Z.to_pos (2 ^ (height / 210000)))%Q
    as Hfrac by (unfold getBlockReward; apply reward_as_fraction; exact Hk).
  split; [exact Hfrac|]. split.
  - rewrite Hfrac.
    assert (0 < 2 ^ (height / 210000)) as Hpos by (apply Z.pow_pos_nonneg; lia).
    destruct (2 ^ (height / 210000)) as [|p|p]; try lia.
    unfold Qeq, Qmult, inject_Z. simpl. lia.
  - repeat split.
Qed.

Lemma getBlockReward_halved_witness :
  0 <= 420000
  /\ (getBlockReward 420000 == 5000000000 # 4)%Q.
Proof.
  split; [lia|].
  exact (proj1 (getBlockReward_halved 420000 ltac:(lia))).
Defined.

(** Past the first nine halvings the exact quotient is no whole number
    of satoshis. *)
Example getBlockReward_fraction :
  (getBlockReward 2100000 == 9765625 # 2)%Q.
Proof. reflexivity. Qed.

Example is_subscribe_push :
  is_subscribe (Some "blockchain.headers.subscribe"%string) = true
  /\ is_subscribe (Some "blockchain.transaction.get"%string) = false
  /\ is_subscribe None = false.
Proof. repeat split. Qed.

(** A remote error fails the pending request with the error object and
    the method of the request. *)
Example handleResponse_error :
  snd (_handleResponse
         (Some (mk_frame (JStr "7") None [] JUndefined
                  (JObj [("code"%string, JNum 2)])))
         {["7"%string := "blockchain.transaction.broadcast"%string]})
  = [Rejected "7" (JObj [("code"%string, JNum 2)]) "blockchain.transaction.broadcast"].
Proof. reflexivity. Qed.

(** The reply that [_handleResponse] gives to a frame that answers a
    pending request and has no truthy [error]. *)
Lemma handleResponse_reply resp requests id method :
  is_subscribe (f_method resp) = false ->
  f_id resp = JStr id ->
  requests !! id = Some method ->
  truthy (f_error resp) = false ->
  _handleResponse (Some resp) requests
  = (delete id requests,
     [Resolved id (if is_null (f_result resp) then JNull
                   else if truthy (f_result resp) then f_result resp
                        else f_error resp)]).
Proof.
  intros Hsub Hid Hreq Herr. unfold _handleResponse.
  rewrite Hsub, Herr, Hid. simpl. rewrite Hreq. reflexivity.
Qed.

(** A result that is [null] or truthy completes the pending request
    with exactly that result. *)
Lemma handleResponse_result resp requests id method :
  is_subscribe (f_method resp) = false ->
  f_id resp = JStr id ->
  requests !! id = Some method ->
  truthy (f_error resp) = false ->
  f_result resp = JNull \/ truthy (f_result resp) = true ->
  _handleResponse (Some resp) requests
  = (delete id requests, [Resolved id (f_result resp)]).
Proof.
  intros Hsub Hid Hreq Herr Hres.
  rewrite (handleResponse_reply resp requests id method) by assumption.
  destruct Hres as [-> | Ht]; [reflexivity|].
  rewrite Ht. destruct (f_result resp); try reflexivity; discriminate.
Qed.

(** C5 on the code: frames that answer the pending request ["7"], carry
    no [error], and carry the results [false], [0] and [""] complete it
    with [undefined] (the absent [error]), not with the result. *)
Theorem handleResponse_drops_falsy_result :
  let requests : gmap string string :=
    {["7"%string := "blockchain.scripthash.unsubscribe"%string]} in
  let frame result := Some (mk_frame (JStr "7") None [] result JUndefined) in
  _handleResponse (frame (JBool false)) requests = (∅, [Resolved "7" JUndefined])
  /\ _handleResponse (frame (JNum 0)) requests = (∅, [Resolved "7" JUndefined])
  /\ _handleResponse (frame (JStr "")) requests = (∅, [Resolved "7" JUndefined])
  /\ _handleResponse (frame JNull) requests = (∅, [Resolved "7" JNull])
  /\ _handleResponse (frame (JBool true)) requests = (∅, [Resolved "7" (JBool true)]).
Proof.
  intros requests frame.
  assert (forall result,
             _handleResponse (frame result) requests
             = (∅, [Resolved "7"
                      (if is_null result then JNull
                       else if truthy result then result else JUndefined)]))
    as Hreply.
  { intros result. unfold frame.
    rewrite (handleResponse_reply _ requests "7" "blockchain.scripthash.unsubscribe");
      reflexivity. }
  rewrite !Hreply. repeat split.
Qed.

Lemma fetch_requests server now txid p :
  snd (fetch server now txid p) = [txid].
Proof. unfold fetch. destruct (server txid); reflexivity. Qed.





End ElectrumFacts.

(** ** Transaction: facts *)

Section TransactionFacts.
Import Transaction.

(** The fee test of [_createTransaction], spelled out. *)
Lemma fee_test (this : Transaction.t) (fee : jsnum) :
  _max_fee_limit this = Some 100000 ->
  (negb (truthy_num fee) || js_le fee (Some 0) || js_gt fee (_max_fee_limit this) = true
   <-> fee = None \/ exists n, fee = Some n /\ (n <= 0 \/ 100000 < n)).
Proof.
  intros ->. destruct fee as [n|]; simpl.
  - destruct (Z.eqb_spec n 0) as [E0|E0], (Z.leb_spec n 0) as [E1|E1],
      (Z.ltb_spec 100000 n) as [E2|E2]; simpl;
      split; intros Hx; try reflexivity; try discriminate; try lia;
      try (right; exists n; split; [reflexivity|lia]).
    all: destruct Hx as [Hx | (m & Hm & Hc)]; [discriminate|injection Hm as <-; lia].
  - split; [intros _; left; reflexivity | reflexivity].
Qed.

(** A fee that passes the test is never reported as invalid later on. *)
Lemma createTransaction_passed fuel w this amount fee s :
  negb (truthy_num fee) || js_le fee (Some 0) || js_gt fee (_max_fee_limit this) = false ->
  forall f, fst (_createTransaction fuel w this amount fee s) <> Throw (InvalidFee f).
Proof.
  intros Hok f. unfold _createTransaction. rewrite Hok.
  destruct (ask w amount (log GetInternalAddress s)) as [[total|] s1];
    [|discriminate].
  destruct (_generateRawTx fuel w total (default 0 fee) amount 1 s1)
    as [[e1|e1|] s2]; try discriminate.
  destruct (_generateRawTx fuel w total (default 0 fee) amount _ s2)
    as [[e2|e2|] s3]; discriminate.
Qed.

(** C10, as amended. Whatever [config.max_fee_limit] is, the limit of
    the builder is 100,000, and [_createTransaction] throws the
    invalid-fee error -- before calling any collaborator -- exactly when
    the fee is absent or at most 0 or above 100,000; builders made from
    any two configurations behave alike. *)
Theorem fee_limit_is_constant (cfg cfg' : config) (fuel : nat) (w : world)
        (amount : Z) (fee : jsnum) (s : state) :
  _max_fee_limit (new cfg) = Some 100000
  /\ (fst (_createTransaction fuel w (new cfg) amount fee s) = Throw (InvalidFee fee)
      <-> fee = None \/ exists n, fee = Some n /\ (n <= 0 \/ 100000 < n))
  /\ (fee = None \/ (exists n, fee = Some n /\ (n <= 0 \/ 100000 < n)) ->
      _createTransaction fuel w (new cfg) amount fee s = (Throw (InvalidFee fee), s))
  /\ _createTransaction fuel w (new cfg) amount fee s
     = _createTransaction fuel w (new cfg') amount fee s.
Proof.
  assert (forall c, _max_fee_limit (new c) = Some 100000) as Hmax
      by (intros c; reflexivity).
  pose proof (fee_test (new cfg) fee (Hmax cfg)) as Htest.
  assert (fee = None \/ (exists n, fee = Some n /\ (n <= 0 \/ 100000 < n)) ->
          _createTransaction fuel w (new cfg) amount fee s
          = (Throw (InvalidFee fee), s)) as Hthrow.
  { intros Hbad. apply Htest in Hbad. unfold _createTransaction. now rewrite Hbad. }
  split; [apply Hmax|]. split; [|split; [exact Hthrow|reflexivity]].
  split.
  - intros Hres.
    destruct (negb (truthy_num fee) || js_le fee (Some 0)
              || js_gt fee (_max_fee_limit (new cfg))) eqn:E.
    + now apply Htest.
    + exfalso. exact (createTransaction_passed fuel w (new cfg) amount fee s E fee Hres).
  - intros Hbad. now rewrite (Hthrow Hbad).
Qed.

(** A fee of 100,001 under a configured limit of 500,000. *)
Lemma fee_limit_is_constant_witness :
  _createTransaction 5 (one_utxo Rejects) (new (mk_config (Some 500000)))
    5000 (Some 100001) start
  = (Throw (InvalidFee (Some 100001)), start).
Proof.
  apply (proj1 (proj2 (proj2
           (fee_limit_is_constant (mk_config (Some 500000)) (mk_config None)
              5 (one_utxo Rejects) 5000 (Some 100001) start)))).
  right. exists 100001. split; [reflexivity|]. right. lia.
Defined.

(** C10 as stated fails at a rate of 5,000 satoshis per virtual byte: the
    fee is neither absent nor at most 0 nor above 100,000 and passes the
    test, the probe is built, and the final transaction, whose fee is
    5,000 x 141, is refused by the fee check of [extractTransaction];
    [_createTransaction] ends with an error all the same. A rate of 4,999
    goes through. *)
Lemma fee_5000_refused_by_psbt :
  ~ (Some 5000 = None
     \/ exists n, Some 5000 = Some n /\ (n <= 0 \/ 100000 < n))
  /\ fst (_createTransaction 3 (ten_coins Rejects) (new (mk_config None))
            5000 (Some 5000) start)
     = Throw (FailedToSend (FeeRateTooHigh 5000))
  /\ fst (_createTransaction 3 (ten_coins Rejects) (new (mk_config None))
            5000 (Some 4999) start)
     = Return (mk_entry 704859 5000).
Proof.
  split; [|split; reflexivity].
  intros [H | (n & Hn & Hc)]; [discriminate|].
  injection Hn as <-. lia.
Qed.

Lemma locks_held_app held l1 l2 :
  locks_held held (l1 ++ l2) = locks_held (locks_held held l1) l2.
Proof.
  revert held. induction l1 as [|c rest IH]; intros held; simpl; [reflexivity|].
  destruct c as [|amount [granted|]|success| |]; apply IH.
Qed.

(** When the sync manager runs out of UTXOs in a retry of
    [_generateRawTx], the locks were handed back just before. *)
Lemma generateRawTx_insufficient fuel w total fee sendAmount weight s held :
  fst (_generateRawTx fuel w total fee sendAmount weight s) = Throw Insufficient ->
  locks_held held (calls (snd (_generateRawTx fuel w total fee sendAmount weight s)))
  = false.
Proof.
  revert total s held. induction fuel as [|fuel IH]; intros total s held; simpl.
  - discriminate.
  - destruct (sendAmount <=? DUST_LIMIT); [discriminate|].
    destruct (total - sendAmount - fee * weight <? DUST_LIMIT);
      [|destruct (maximumFeeRate <=? _); discriminate].
    unfold ask. simpl.
    destruct (utxoForAmount w (asked s) (total + fee)) as [newTotal|]; simpl.
    + apply IH.
    + intros _. rewrite !locks_held_app. reflexivity.
Qed.

(** A send amount at or below the dust limit: the UTXOs selected for it
    stay locked when the error comes back. *)
Lemma send_dust_keeps_locks fuel w this amount rate total s held :
  negb (truthy_num (Some rate)) || js_le (Some rate) (Some 0)
    || js_gt (Some rate) (_max_fee_limit this) = false ->
  amount <= DUST_LIMIT ->
  utxoForAmount w (asked s) amount = Some total ->
  fst (send (S fuel) w this amount (Some rate) s)
  = Throw (FailedToSimulate (DustAmount amount))
  /\ locks_held held (calls (snd (send (S fuel) w this amount (Some rate) s))) = true.
Proof.
  intros Hfee Hdust Hgrant. unfold send, _createTransaction.
  rewrite Hfee. unfold ask. simpl calls. simpl asked. rewrite Hgrant.
  simpl _generateRawTx.
  destruct (Z.leb_spec amount DUST_LIMIT); [|lia]. simpl.
  split; [reflexivity|]. rewrite !locks_held_app. reflexivity.
Qed.

(** A rejected broadcast: [send] throws without a call to [unlockUtxo]. *)
Lemma send_rejected_keeps_locks fuel w this amount fee s tx s' :
  _createTransaction fuel w this amount fee s = (Return tx, s') ->
  broadcastTransaction w = Rejects ->
  send fuel w this amount fee s = (Throw FailedToBroadcast, log Broadcast s').
Proof. intros Hc Hb. unfold send. now rewrite Hc, Hb. Qed.

(** C1 on the code, for a wallet with one 10,000 satoshi output and a
    fee rate of 2. Sending 500 satoshis (dust) fails after the output
    was selected and locked, with no [unlockUtxo] call. Sending 5,000
    satoshis when the provider rejects the broadcast fails after
    [addSentTx] and the broadcast, again with no [unlockUtxo] call. Only
    a broadcast that resolves with a [message] is followed by
    [unlockUtxo(false)]. *)
Theorem send_failure_keeps_locks :
  let this := new (mk_config None) in
  send 5 (one_utxo (Resolves None)) this 500 (Some 2) start
  = (Throw (FailedToSimulate (DustAmount 500)),
     mk_state [GetInternalAddress; UtxoForAmount 500 (Some 10000)] [] 1)
  /\ locks_held false [GetInternalAddress; UtxoForAmount 500 (Some 10000)] = true
  /\ fst (send 5 (one_utxo Rejects) this 5000 (Some 2) start) = Throw FailedToBroadcast
  /\ calls (snd (send 5 (one_utxo Rejects) this 5000 (Some 2) start))
     = [GetInternalAddress; UtxoForAmount 5000 (Some 10000); AddSentTx; Broadcast]
  /\ locks_held false
       (calls (snd (send 5 (one_utxo Rejects) this 5000 (Some 2) start))) = true
  /\ fst (send 5 (one_utxo (Resolves (Some "bad-txns-inputs-missingorspent"%string)))
            this 5000 (Some 2) start)
     = Throw (BroadcastFailed "bad-txns-inputs-missingorspent")
  /\ calls (snd (send 5 (one_utxo (Resolves (Some "bad-txns-inputs-missingorspent"%string)))
                   this 5000 (Some 2) start))
     = [GetInternalAddress; UtxoForAmount 5000 (Some 10000); AddSentTx; Broadcast;
        UnlockUtxo false].
Proof. vm_compute. repeat split. Qed.

End TransactionFacts.

(** ** Ledger: facts *)

Section LedgerFacts.
Import Balance Ledger.

(** After [addTxid(state, t, a)], [getTx] finds the record [(t, a)] in
    bucket [state] and nothing for [t] in the other two buckets. *)
Theorem getTx_addTxid (b : Balance.t) (state s : bucket) (t : string) (a : Z) :
  getTx s t (addTxid state t a b)
  = if bucket_eqb s state then Some (t, a) else None.
Proof.
  unfold getTx. rewrite records_after.
  destruct (bucket_eqb s state); reflexivity.
Qed.

(** [addTxid] for one txid leaves what [getTx] finds for any other txid,
    in every bucket, as it was. *)
Theorem getTx_addTxid_other (b : Balance.t) (state s : bucket) (t t' : string) (a : Z) :
  t' <> t ->
  getTx s t' (addTxid state t a b) = getTx s t' b.
Proof.
  intros Hne. unfold getTx. now rewrite records_after_other.
Qed.

Lemma getTx_addTxid_other_witness :
  "u"%string <> "t"%string
  /\ getTx mempool "u" (addTxid confirmed "t" 7 (addTxid mempool "u" 3 Balance.empty))
     = Some ("u"%string, 3).
Proof.
  assert ("u"%string <> "t"%string) as Hne by discriminate.
  split; [exact Hne|].
  rewrite (getTx_addTxid_other (addTxid mempool "u" 3 Balance.empty)
             confirmed mempool "t" "u" 7 Hne).
  reflexivity.
Defined.

Lemma getTx_some_records s t b :
  is_Some (getTx s t b) -> (1 <= length (records t (txid_of s b)))%nat.
Proof.
  unfold getTx. intros [e He].
  destruct (records t (txid_of s b)); [discriminate|simpl; lia].
Qed.

(** In a state built by [addTxid] from a fresh [Balance], a txid that
    [getTx] finds in two buckets is found in one and the same bucket: no
    txid lives in two buckets at once. *)
Theorem reachable_one_bucket (b : Balance.t) (s1 s2 : bucket) (t : string) :
  reachable b ->
  is_Some (getTx s1 t b) ->
  is_Some (getTx s2 t b) ->
  s1 = s2.
Proof.
  intros Hr H1 H2.
  pose proof (reachable_recorded_once b Hr t) as Hocc.
  apply getTx_some_records in H1. apply getTx_some_records in H2.
  unfold occurrences in Hocc.
  destruct s1, s2; simpl in *; try reflexivity; lia.
Qed.

Lemma reachable_one_bucket_witness :
  let b := addTxid pending "t" 4 (addTxid mempool "t" 4 Balance.empty) in
  reachable b /\ is_Some (getTx pending "t" b) /\ pending = pending.
Proof.
  intros b.
  assert (reachable b) as Hr by (repeat constructor).
  assert (is_Some (getTx pending "t" b)) as Hs by (eexists; reflexivity).
  split; [exact Hr|]. split; [exact Hs|].
  exact (reachable_one_bucket b pending pending "t" Hr Hs Hs).
Defined.

Lemma recorded_total_app l1 l2 :
  recorded_total (l1 ++ l2) = recorded_total l1 + recorded_total l2.
Proof.
  unfold recorded_total. induction l1 as [|e l1 IH]; simpl; [reflexivity|].
  rewrite IH. lia.
Qed.

Lemma recorded_total_split t l :
  recorded_total l = recorded_total (without t l) + recorded_sum t l.
Proof.
  unfold recorded_total, recorded_sum, without, records.
  induction l as [|e l IH]; simpl; [reflexivity|].
  destruct (String.eqb (fst e) t); simpl; lia.
Qed.

(** If every bucket amount is the sum of its recorded amounts, and the
    records the ledger already has of [t] carry the amount [a] of the
    call, then the same holds after [addTxid(state, t, a)]. *)
Theorem addTxid_keeps_consistent (b : Balance.t) (state : bucket) (t : string) (a : Z) :
  consistent b ->
  (forall s a0, In (t, a0) (txid_of s b) -> a0 = a) ->
  consistent (addTxid state t a b).
Proof.
  intros Hc Hsame s. rewrite addTxid_closed_form.
  pose proof (Hc s) as Hs.
  pose proof (recorded_total_split t (txid_of s b)) as Hsplit.
  pose proof (recorded_sum_same t a (txid_of s b) (Hsame s)) as Hsum.
  assert (amount_of s (addTxid_closed state t a b)
          = fst (code_bucket state t a s b)) as -> by (destruct s; reflexivity).
  assert (txid_of s (addTxid_closed state t a b)
          = snd (code_bucket state t a s b)) as -> by (destruct s; reflexivity).
  unfold code_bucket. simpl. rewrite recorded_total_app.
  destruct (bucket_eqb s state); unfold recorded_total at 2; simpl; lia.
Qed.

Lemma addTxid_keeps_consistent_witness :
  let b := addTxid mempool "t" 5 Balance.empty in
  consistent b
  /\ consistent (addTxid confirmed "t" 5 b).
Proof.
  intros b.
  assert (consistent b) as Hc by (intros s; destruct s; reflexivity).
  split; [exact Hc|].
  apply (addTxid_keeps_consistent b confirmed "t" 5 Hc).
  intros s a0 Hin. destruct s; simpl in Hin; try contradiction.
  destruct Hin as [Heq | []]. congruence.
Defined.

Lemma rebuild_id data : rebuild data = data.
Proof.
  destruct data as [c p m lc lp lm]. unfold rebuild, or_zero. simpl.
  destruct (Z.eqb_spec c 0), (Z.eqb_spec p 0), (Z.eqb_spec m 0); subst; reflexivity.
Qed.

Lemma get_lookup addr (store : gmap string address) : get addr store = store !! addr.
Proof.
  unfold get. destruct (store !! addr) as [[i o f]|]; [|reflexivity].
  simpl. now rewrite !rebuild_id.
Qed.

(** [newAddress] returns what [get] reads afterwards; for a known address
    that is the stored entry and the store is not written; for an unknown
    one it is three zero balances with empty lists; other addresses are
    not touched; a second [newAddress] changes nothing. *)
Theorem newAddress_get (addr other : string) (store : gmap string address) :
  get addr (snd (newAddress addr store)) = Some (fst (newAddress addr store))
  /\ fst (newAddress addr store)
     = match store !! addr with Some data => data | None => _newAddr end
  /\ snd (newAddress addr store)
     = match store !! addr with Some _ => store | None => <[addr := _newAddr]> store end
  /\ get other (snd (newAddress addr store))
     = (if decide (other = addr) then Some (fst (newAddress addr store))
        else get other store)
  /\ newAddress addr (snd (newAddress addr store))
     = (fst (newAddress addr store), snd (newAddress addr store)).
Proof.
  unfold newAddress. rewrite !get_lookup.
  destruct (store !! addr) as [data|] eqn:E; simpl; rewrite ?get_lookup.
  - rewrite E. repeat split. destruct (decide (other = addr)) as [->|]; [exact E|reflexivity].
  - rewrite lookup_insert_eq. repeat split.
    destruct (decide (other = addr)) as [->|Hne].
    + apply lookup_insert_eq.
    + now apply lookup_insert_ne.
Qed.

End LedgerFacts.

(** ** History index: further facts *)

Section HistoryFacts.
Import AddressManager Ledger.

Lemma txkey_inj t1 t2 : txkey t1 = txkey t2 -> t1 = t2.
Proof. unfold txkey. intros H. now apply (inj (String.app "tx:")) in H. Qed.

Lemma ikey_lower_ne h txid : ikey (h - 1) txid <> ikey h txid.
Proof. intros E. apply ikey_height_inj in E. lia. Qed.

(** The lookups of a history after [storeTx], key by key. *)
Lemma storeTx_lookup tx history k :
  storeTx tx history !! k
  = if decide (k = txkey (tv_txid tx)) then Some (HHeight (tv_height tx))
    else if decide (k = ikey (tv_height tx) (tv_txid tx)) then Some (HTx tx)
    else if decide (k = ikey (tv_height tx - 1) (tv_txid tx)) then None
    else if decide (k = ikey 0 (tv_txid tx)) then None
    else history !! k.
Proof.
  unfold storeTx.
  destruct (decide (k = txkey (tv_txid tx))) as [->|H1].
  { apply lookup_insert_eq. }
  rewrite lookup_insert_ne by congruence.
  destruct (decide (k = ikey (tv_height tx) (tv_txid tx))) as [->|H2].
  { apply lookup_insert_eq. }
  rewrite lookup_insert_ne by congruence.
  destruct (decide (k = ikey (tv_height tx - 1) (tv_txid tx))) as [->|H3].
  { apply lookup_delete_eq. }
  rewrite lookup_delete_ne by congruence.
  destruct (decide (k = ikey 0 (tv_txid tx))) as [->|H4].
  { apply lookup_delete_eq. }
  now rewrite lookup_delete_ne by congruence.
Qed.

(** Storing the same view twice is storing it once. *)
Theorem storeTx_idempotent (tx : txview) (history : gmap string hval) :
  storeTx tx (storeTx tx history) = storeTx tx history.
Proof.
  apply map_eq. intros k. rewrite !storeTx_lookup.
  repeat case_decide; reflexivity.
Qed.

(** [storeTx] of one txid leaves the height recorded for every other
    txid as it was. *)
Theorem storeTx_other_height (tx : txview) (history : gmap string hval) (txid : string) :
  txid <> tv_txid tx ->
  getHeight txid (storeTx tx history) = getHeight txid history.
Proof.
  intros Hne. unfold getHeight. rewrite storeTx_lookup.
  destruct (decide (txkey txid = txkey (tv_txid tx))) as [E|_].
  { apply txkey_inj in E. contradiction. }
  repeat case_decide; try reflexivity;
    exfalso; eapply txkey_not_ikey; eassumption.
Qed.

Lemma storeTx_other_height_witness :
  "cd"%string <> tv_txid (mk_txview "ab" 7 JNull)
  /\ getHeight "cd" (storeTx (mk_txview "ab" 7 JNull)
                       (storeTx (mk_txview "cd" 5 JNull) ∅))
     = Some (HHeight 5).
Proof.
  assert ("cd"%string <> tv_txid (mk_txview "ab" 7 JNull)) as Hne by discriminate.
  split; [exact Hne|].
  rewrite (storeTx_other_height (mk_txview "ab" 7 JNull) _ "cd" Hne).
  reflexivity.
Defined.

(** [storeTx] clears the index keys of its txid at height [0] and at
    [height - 1] only: an entry of the same txid at any other height
    (other than the new one) stays in the index. *)
Theorem storeTx_keeps_older (tx : txview) (history : gmap string hval) (h : Z) :
  h <> 0 ->
  h <> tv_height tx - 1 ->
  h <> tv_height tx ->
  storeTx tx history !! ikey h (tv_txid tx) = history !! ikey h (tv_txid tx).
Proof.
  intros H0 H1 H2. rewrite storeTx_lookup.
  destruct (decide (ikey h (tv_txid tx) = txkey (tv_txid tx))) as [E|_].
  { symmetry in E. exfalso. eapply txkey_not_ikey; eassumption. }
  destruct (decide (ikey h (tv_txid tx) = ikey (tv_height tx) (tv_txid tx))) as [E|_].
  { apply ikey_height_inj in E. contradiction. }
  destruct (decide (ikey h (tv_txid tx) = ikey (tv_height tx - 1) (tv_txid tx))) as [E|_].
  { apply ikey_height_inj in E. contradiction. }
  destruct (decide (ikey h (tv_txid tx) = ikey 0 (tv_txid tx))) as [E|_].
  { apply ikey_height_inj in E. contradiction. }
  reflexivity.
Qed.

(** A view stored at height 5 and stored again at height 7 is then in
    the index twice. *)
Lemma storeTx_keeps_older_witness :
  5 <> 0 /\ 5 <> 7 - 1 /\ 5 <> 7
  /\ storeTx (mk_txview "ab" 7 JNull) (storeTx (mk_txview "ab" 5 JNull) ∅)
       !! ikey 5 "ab"
     = Some (HTx (mk_txview "ab" 5 JNull)).
Proof.
  assert (5 <> 0) as H0 by lia.
  assert (5 <> tv_height (mk_txview "ab" 7 JNull) - 1) as H1 by (simpl; lia).
  assert (5 <> tv_height (mk_txview "ab" 7 JNull)) as H2 by (simpl; lia).
  split; [exact H0|]. split; [exact H1|]. split; [exact H2|].
  rewrite (storeTx_keeps_older (mk_txview "ab" 7 JNull) _ 5 H0 H1 H2).
  reflexivity.
Defined.

Lemma dbkey_not_txkey t t' : "txid:" +:+ t <> txkey t'.
Proof. unfold txkey. simpl. discriminate. Qed.

Lemma dbkey_not_ikey t h t' : "txid:" +:+ t <> ikey h t'.
Proof. unfold ikey. simpl. discriminate. Qed.

Lemma mempoolkey_not_txkey t : "i:" +:+ pretty 0 <> txkey t.
Proof. unfold txkey. simpl. discriminate. Qed.

Lemma mempoolkey_not_ikey h t : "i:" +:+ pretty 0 <> ikey h t.
Proof.
  unfold ikey. intros E. apply (inj (String.app "i:")) in E.
  change (pretty 0) with "0"%string in E.
  destruct (pretty h) as [|c s]; simpl in E; [discriminate|].
  injection E as _ E. destruct s; discriminate.
Qed.

Lemma storeTx_unread_keys tx history :
  _getDbTx (tv_txid tx) (storeTx tx history) = _getDbTx (tv_txid tx) history
  /\ (forall t, _getDbTx t (storeTx tx history) = _getDbTx t history)
  /\ getMempoolTx (storeTx tx history) = getMempoolTx history.
Proof.
  assert (forall t, _getDbTx t (storeTx tx history) = _getDbTx t history) as Hdb.
  { intros t. unfold _getDbTx. rewrite storeTx_lookup.
    repeat case_decide; try reflexivity; exfalso;
      first [eapply dbkey_not_txkey; eassumption
            |eapply dbkey_not_ikey; eassumption]. }
  split; [apply Hdb|]. split; [exact Hdb|].
  unfold getMempoolTx. rewrite storeTx_lookup.
  repeat case_decide; try reflexivity; exfalso;
    first [eapply mempoolkey_not_txkey; eassumption
          |eapply mempoolkey_not_ikey; eassumption].
Qed.

(** [_getDbTx] reads the key [txid:<txid>] and [getMempoolTx] the key
    [i:0]; [storeTx] writes neither. In a history that [storeTx] alone has
    filled, both read nothing, whatever was stored. *)
Theorem storeTx_never_feeds_getters (txs : list txview) (txid : string) :
  _getDbTx txid (storeTxs txs ∅) = None
  /\ getMempoolTx (storeTxs txs ∅) = None.
Proof.
  assert (forall history,
             _getDbTx txid (storeTxs txs history) = _getDbTx txid history
             /\ getMempoolTx (storeTxs txs history) = getMempoolTx history) as H.
  { induction txs as [|tx rest IH]; intros history; [split; reflexivity|].
    change (storeTxs (tx :: rest) history) with (storeTxs rest (storeTx tx history)).
    destruct (IH (storeTx tx history)) as [H1 H2].
    destruct (storeTx_unread_keys tx history) as (_ & Hdb & Hmp).
    rewrite H1, H2, Hdb, Hmp. split; reflexivity. }
  destruct (H ∅) as [H1 H2]. rewrite H1, H2. split; apply lookup_empty.
Qed.

(** Skipping: while [skipped < offset] the callback only counts. *)
Lemma getTransactions_skipping limit offset scan results skipped :
  skipped <= offset ->
  fst (fold_left (getTransactions_entry limit offset) scan (results, skipped))
  = fst (fold_left (getTransactions_entry limit offset)
           (drop (Z.to_nat (offset - skipped)) scan) (results, offset)).
Proof.
  revert skipped. induction scan as [|kv rest IH]; intros skipped Hle.
  - rewrite drop_nil. reflexivity.
  - destruct (Z.eq_dec skipped offset) as [->|Hne].
    + replace (offset - offset) with 0 by lia. reflexivity.
    + assert (skipped < offset) as Hlt by lia.
      cbn [fold_left]. unfold getTransactions_entry at 2.
      destruct (Z.ltb_spec skipped offset); [|lia].
      rewrite IH by lia.
      replace (Z.to_nat (offset - skipped))
        with (S (Z.to_nat (offset - (skipped + 1)))) by lia.
      reflexivity.
Qed.

(** Collecting: once skipping is over, entries that pass the test are
    appended until [results] has [limit] elements. *)
Lemma getTransactions_collecting limit offset scan results :
  fst (fold_left (getTransactions_entry limit offset) scan (results, offset))
  = results ++ map snd (take (Z.to_nat limit - length results) (List.filter listed scan)).
Proof.
  revert results. induction scan as [|kv rest IH]; intros results.
  - simpl. rewrite take_nil. now rewrite app_nil_r.
  - cbn [fold_left]. unfold getTransactions_entry at 2.
    destruct (Z.ltb_spec offset offset); [lia|].
    destruct (Z.leb_spec limit (Z.of_nat (length results))) as [Hfull|Hroom].
    + rewrite IH.
      replace (Z.to_nat limit - length results)%nat with 0%nat by lia.
      reflexivity.
    + unfold listed at 1. simpl List.filter.
      destruct (String.prefix "i:" (fst kv)); simpl.
      * destruct (truthy_hval (snd kv)); simpl.
        -- rewrite IH, length_app. simpl.
           replace (Z.to_nat limit - length results)%nat
             with (S (Z.to_nat limit - (length results + 1)))%nat by lia.
           simpl. now rewrite <- app_assoc.
        -- apply IH.
      * apply IH.
Qed.

(** [getTransactions] drops the first [offset] entries of the scan --
    counted before any test, so entries that would not be listed count too
    --, keeps of the rest those whose key starts with [i:] and whose value
    is truthy, and returns the first [limit] of them; [limit] is 1000 when
    absent or 0, [offset] is 0 when absent. *)
Theorem getTransactions_page (opts : listing) (scan : list (string * hval)) :
  getTransactions opts scan
  = map snd (take (Z.to_nat (limit_of opts))
               (List.filter listed (drop (Z.to_nat (offset_of opts)) scan)))
  /\ (length (getTransactions opts scan) <= Z.to_nat (limit_of opts))%nat
  /\ limit_of (mk_listing None (opt_offset opts)) = 1000
  /\ limit_of (mk_listing (Some 0) (opt_offset opts)) = 1000.
Proof.
  assert (getTransactions opts scan
          = map snd (take (Z.to_nat (limit_of opts))
                       (List.filter listed (drop (Z.to_nat (offset_of opts)) scan)))) as Heq.
  { unfold getTransactions.
    destruct (Z.le_gt_cases 0 (offset_of opts)) as [Hpos|Hneg].
    - rewrite getTransactions_skipping by exact Hpos.
      rewrite getTransactions_collecting. simpl.
      now rewrite Z.sub_0_r, Nat.sub_0_r.
    - assert (forall l results,
                 fst (fold_left (getTransactions_entry (limit_of opts) (offset_of opts))
                        l (results, 0))
                 = results ++ map snd (take (Z.to_nat (limit_of opts) - length results)
                                         (List.filter listed l))) as Hgen.
      { induction l as [|kv rest IH]; intros results.
        - simpl. rewrite take_nil. now rewrite app_nil_r.
        - cbn [fold_left]. unfold getTransactions_entry at 2.
          destruct (Z.ltb_spec 0 (offset_of opts)); [lia|].
          destruct (Z.leb_spec (limit_of opts) (Z.of_nat (length results))).
          + rewrite IH.
            replace (Z.to_nat (limit_of opts) - length results)%nat with 0%nat by lia.
            reflexivity.
          + unfold listed at 1. simpl List.filter.
            destruct (String.prefix "i:" (fst kv)); simpl; [|apply IH].
            destruct (truthy_hval (snd kv)); simpl; [|apply IH].
            rewrite IH, length_app. simpl.
            replace (Z.to_nat (limit_of opts) - length results)%nat
              with (S (Z.to_nat (limit_of opts) - (length results + 1)))%nat by lia.
            simpl. now rewrite <- app_assoc. }
      rewrite Hgen. simpl.
      replace (Z.to_nat (offset_of opts)) with 0%nat by lia.
      now rewrite Nat.sub_0_r. }
  split; [exact Heq|]. split; [|split; reflexivity].
  rewrite Heq, length_map, length_take. lia.
Qed.

End HistoryFacts.

(** ** Block counter: restart and events *)

Section RestartFacts.
Import BlockCounter Restart.

Lemma getLatestBlock_stored h st : getLatestBlock (setLatestBlock h st) = h.
Proof.
  unfold getLatestBlock, setLatestBlock. rewrite lookup_insert_eq.
  destruct (Z.eqb_spec h 0); congruence.
Qed.

Lemma setBlock_in_step h c :
  getLatestBlock (state c) = block c ->
  getLatestBlock (state (snd (setBlock h c))) = block (snd (setBlock h c)).
Proof.
  intros Hs. unfold setBlock. destruct (h - block c <? 0); simpl; [exact Hs|].
  apply getLatestBlock_stored.
Qed.

Lemma setBlocks_in_step hs c :
  getLatestBlock (state c) = block c ->
  getLatestBlock (state (setBlocks hs c)) = block (setBlocks hs c).
Proof.
  revert c. induction hs as [|h rest IH]; intros c Hs; [exact Hs|].
  change (setBlocks (h :: rest) c) with (setBlocks rest (snd (setBlock h c))).
  apply IH. now apply setBlock_in_step.
Qed.

(** A counter that was initialised from the store and then took any run
    of pushes is what [init] would make of it again: the persisted
    [latest_block] always equals the tracked block, so a restart resumes
    at the same height. *)
Theorem init_after_pushes (c : BlockCounter.t) (heights : list Z) :
  init (setBlocks heights (init c)) = setBlocks heights (init c)
  /\ getLatestBlock (state (setBlocks heights (init c)))
     = block (setBlocks heights (init c)).
Proof.
  assert (getLatestBlock (state (setBlocks heights (init c)))
          = block (setBlocks heights (init c))) as Hs
      by (apply setBlocks_in_step; reflexivity).
  split; [|exact Hs].
  unfold init at 1. rewrite Hs.
  destruct (setBlocks heights (init c)); reflexivity.
Qed.

Lemma sound_weaken floor floor' e : floor' <= floor -> sound floor e -> sound floor' e.
Proof. unfold sound. intros Hle (H1 & H2 & H3). repeat split; lia. Qed.

(** A run of pushes only appends to the [new-block] events, at most one
    per push; each appended event has a step [diff >= 0] from [last] to
    [current], never starts below the block the run started from, and the
    last one announces the block the counter ends at. *)
Theorem setBlocks_events (c : BlockCounter.t) (heights : list Z) :
  exists appended : list blockinfo,
    emitted (setBlocks heights c) = emitted c ++ appended
    /\ Forall (sound (block c)) appended
    /\ (length appended <= length heights)%nat
    /\ (appended = [] /\ block (setBlocks heights c) = block c
        \/ exists e rest, appended = rest ++ [e]
                          /\ current e = block (setBlocks heights c)).
Proof.
  revert c. induction heights as [|h hs IH]; intros c.
  - exists []. simpl. rewrite app_nil_r. repeat split; [constructor|lia|].
    left. split; reflexivity.
  - change (setBlocks (h :: hs) c) with (setBlocks hs (snd (setBlock h c))).
    destruct (IH (snd (setBlock h c))) as (app & Hem & Hsound & Hlen & Hlast).
    unfold setBlock in *. destruct (Z.ltb_spec (h - block c) 0) as [Hneg|Hpos].
    + simpl in *. exists app. repeat split; try assumption. lia.
    + simpl in *. exists (mk_info h (h - block c) (block c) :: app).
      split; [rewrite Hem; rewrite <- app_assoc; reflexivity|].
      split.
      { constructor.
        - unfold sound. simpl. lia.
        - eapply Forall_impl; [exact Hsound|].
          intros e. simpl. apply sound_weaken. lia. }
      split; [simpl; lia|].
      right. destruct Hlast as [[-> Hb] | (e & rest & -> & He)].
      * exists (mk_info h (h - block c) (block c)), []. split; [reflexivity|].
        simpl. now rewrite Hb.
      * exists e, (mk_info h (h - block c) (block c) :: rest).
        split; [reflexivity|exact He].
Qed.

End RestartFacts.

(** ** Request cache: order, overwriting, eviction, expiry *)

Section SweeperFacts.
Import RequestCache Sweeper.

Lemma sets_snoc calls call c :
  sets (calls ++ [call]) c
  = set (fst (fst call)) (snd (fst call)) (snd call) (sets calls c).
Proof. unfold sets. now rewrite fold_left_app. Qed.

Lemma sets_index calls c :
  _getCacheIndex (sets calls c) = _getCacheIndex c ++ map key_of calls.
Proof.
  induction calls as [|call calls IH] using rev_ind.
  - simpl. now rewrite app_nil_r.
  - rewrite sets_snoc, set_unfolded. simpl.
    rewrite IH, map_app, <- app_assoc. reflexivity.
Qed.

(** The index lists the keys of all [set] calls in call order, a key as
    often as it was set; [get] returns for a key the value of the last
    [set] on it (what was cached before if there was none). *)
Theorem sets_order_and_last_write (calls : list (Z * string * tx))
        (c : RequestCache.t) (k : string) :
  _getCacheIndex (sets calls c) = _getCacheIndex c ++ map key_of calls
  /\ get k (sets calls c)
     = match last (List.filter (fun call => String.eqb (key_of call) k) calls) with
       | Some call => Some (snd call)
       | None => get k c
       end.
Proof.
  split; [apply sets_index|].
  induction calls as [|[[now key] value] calls IH] using rev_ind.
  - reflexivity.
  - rewrite sets_snoc, List.filter_app. simpl.
    unfold key_of at 2. simpl.
    destruct (String.eqb_spec key k) as [->|Hne].
    + rewrite last_snoc. apply get_set_same.
    + rewrite app_nil_r, <- IH. unfold get.
      rewrite set_other by congruence. reflexivity.
Qed.

(** [_removeOldest] after a run of [set]s on a cache whose index was
    empty evicts the key that was set first: the key leaves the store and
    the head of the index, every other key is served as before, and the
    index goes on listing the keys of the later calls -- the evicted key
    too, if it was set again. On an empty index it removes nothing. *)
Theorem removeOldest_first_in (now : Z) (key : string) (value : tx)
        (rest : list (Z * string * tx)) (c : RequestCache.t) (k : string) :
  _getCacheIndex c = [] ->
  _getCacheIndex (_removeOldest (sets ((now, key, value) :: rest) c))
  = map key_of rest
  /\ get k (_removeOldest (sets ((now, key, value) :: rest) c))
     = (if decide (k = key) then None
        else get k (sets ((now, key, value) :: rest) c))
  /\ store (_removeOldest c) = store c.
Proof.
  intros Hempty.
  pose proof (sets_index ((now, key, value) :: rest) c) as Hidx.
  rewrite Hempty in Hidx.
  change ([] ++ map key_of ((now, key, value) :: rest))
    with (key :: map key_of rest) in Hidx.
  unfold _removeOldest. rewrite Hidx, Hempty.
  split; [reflexivity|]. split; [|reflexivity].
  unfold get. simpl.
  destruct (decide (k = key)) as [->|Hne].
  - now rewrite lookup_delete_eq.
  - now rewrite lookup_delete_ne by congruence.
Qed.

Lemma removeOldest_first_in_witness :
  let c := RequestCache.new (mk_config None None) ∅ None in
  _getCacheIndex c = []
  /\ get "a"%string
       (_removeOldest (sets [(1, "a"%string, sample "a"); (2, "b"%string, sample "b")] c))
     = None
  /\ get "b"%string
       (_removeOldest (sets [(1, "a"%string, sample "a"); (2, "b"%string, sample "b")] c))
     = Some (sample "b").
Proof.
  intros c.
  assert (_getCacheIndex c = []) as He by reflexivity.
  split; [exact He|]. split.
  - exact (proj1 (proj2 (removeOldest_first_in 1 "a" (sample "a")
                           [(2, "b"%string, sample "b")] c "a" He))).
  - rewrite (proj1 (proj2 (removeOldest_first_in 1 "a" (sample "a")
                             [(2, "b"%string, sample "b")] c "b" He))).
    reflexivity.
Defined.

Lemma tick_get now c k :
  get k (tick now c)
  = match store c !! k with
    | Some data => if now <? snd data then Some (fst data) else None
    | None => None
    end.
Proof.
  unfold get, tick. simpl.
  destruct (store c !! k) as [data|] eqn:E.
  - destruct (Z.ltb_spec now (snd data)) as [Hlt|Hge].
    + erewrite (proj2 (map_lookup_filter_Some _ (store c) k data)); [reflexivity|].
      split; [exact E|exact Hlt].
    + destruct (filter _ (store c) !! k) as [d|] eqn:F; [|reflexivity].
      apply map_lookup_filter_Some in F as [F1 F2]. simpl in F2.
      rewrite E in F1. injection F1 as <-. lia.
  - destruct (filter _ (store c) !! k) as [d|] eqn:F; [|reflexivity].
    apply map_lookup_filter_Some in F as [F1 _]. congruence.
Qed.

(** A value cached at clock reading [t0] without an [expiry] of its own
    survives a sweep exactly while the clock is before [t0] plus the cache
    timeout; the sweep serves nothing that was not cached before, and it
    leaves the index as it is -- swept keys stay listed. *)
Theorem tick_lifetime (t0 t1 : Z) (k k' : string) (value : tx) (c : RequestCache.t) :
  tx_expiry value = None ->
  get k (tick t1 (set t0 k value c))
  = (if t1 <? t0 + _cache_expiry c then Some value else None)
  /\ (get k' (tick t1 c) = None \/ get k' (tick t1 c) = get k' c)
  /\ _getCacheIndex (tick t1 (set t0 k value c)) = _getCacheIndex c ++ [k].
Proof.
  intros Hexp. split; [|split].
  - rewrite tick_get, set_unfolded. simpl. rewrite lookup_insert_eq, Hexp. reflexivity.
  - rewrite tick_get. unfold get.
    destruct (store c !! k') as [data|]; [|left; reflexivity].
    destruct (t1 <? snd data); [right|left]; reflexivity.
  - reflexivity.
Qed.

Lemma tick_lifetime_witness :
  let c := RequestCache.new (mk_config (Some 1000) None) ∅ None in
  tx_expiry (sample "a") = None
  /\ get "a"%string (tick 1499 (set 500 "a" (sample "a") c)) = Some (sample "a")
  /\ get "a"%string (tick 1500 (set 500 "a" (sample "a") c)) = None.
Proof.
  intros c.
  assert (tx_expiry (sample "a") = None) as He by reflexivity.
  split; [exact He|]. split.
  - rewrite (proj1 (tick_lifetime 500 1499 "a" "a" (sample "a") c He)). reflexivity.
  - rewrite (proj1 (tick_lifetime 500 1500 "a" "a" (sample "a") c He)). reflexivity.
Defined.

End SweeperFacts.

(** ** Transport and provider: further facts *)

Section TransportFacts.
Import Electrum Transport.

(** [_procTxHeight] always sets a height and leaves the other fields. It
    is 0 -- the mark of a mempool transaction -- exactly when the
    confirmations are absent, 0, or one more than the tip the provider
    knows; processing twice is processing once. *)
Theorem procTxHeight_zero (p : Electrum.t) (tx : RequestCache.tx) :
  (exists h, RequestCache.tx_height (_procTxHeight p tx) = Some h)
  /\ (RequestCache.tx_height (_procTxHeight p tx) = Some 0
      <-> RequestCache.tx_confirmations tx = None
          \/ RequestCache.tx_confirmations tx = Some 0
          \/ RequestCache.tx_confirmations tx = Some (block_height p + 1))
  /\ _procTxHeight p (_procTxHeight p tx) = _procTxHeight p tx
  /\ RequestCache.tx_txid (_procTxHeight p tx) = RequestCache.tx_txid tx
  /\ RequestCache.tx_body (_procTxHeight p tx) = RequestCache.tx_body tx.
Proof.
  unfold _procTxHeight.
  destruct (RequestCache.tx_confirmations tx) as [c|] eqn:E.
  - destruct (Z.eqb_spec c 0) as [->|Hne]; simpl.
    + split; [eauto|]. split; [|repeat split].
      split; [intros _; right; left; reflexivity|reflexivity].
    + split; [eauto|]. split; [|split; [|split; reflexivity]].
      * split.
        -- intros [= H]. right. right. f_equal. lia.
        -- intros [H|[H|H]]; try discriminate.
           ++ injection H as ->. contradiction.
           ++ injection H as ->. f_equal. lia.
      * destruct (Z.eqb_spec c 0); [contradiction|reflexivity].
  - simpl. split; [eauto|]. split; [|repeat split].
    split; [intros _; left; reflexivity|reflexivity].
Qed.

(** A provider that has not heard of any block yet (tip 0) takes a
    transaction with one confirmation for a mempool transaction. *)
Lemma procTxHeight_zero_witness :
  RequestCache.tx_height
    (_procTxHeight (Electrum.mk (RequestCache.new (RequestCache.mk_config None None) ∅ None) 0)
       (RequestCache.mk_tx "ab" (Some 1) None None JNull))
  = Some 0.
Proof.
  apply (proj1 (proj2 (procTxHeight_zero _ _))).
  right. right. reflexivity.
Defined.

Lemma is_false_not v : v <> JBool false -> is_false v = false.
Proof. destruct v as [| |[|]| | | |]; try reflexivity. congruence. Qed.

(** Whatever a call of [_txGet] returned, the next call for the same txid
    with the cache allowed returns the very same view without asking the
    server when the height of that view is not 0, and asks the server
    again when it is 0: a mempool view is fetched anew on every call. *)
Theorem txGet_again (server : string -> option RequestCache.tx) (now now' : Z)
        (txid : string) (opts opts' : jsval) (p : Electrum.t) (v : RequestCache.tx) :
  fst (fst (_txGet server now txid opts p)) = Some v ->
  opts' <> JBool false ->
  let p1 := snd (fst (_txGet server now txid opts p)) in
  if height_not_zero v
  then _txGet server now' txid opts' p1 = (Some v, p1, [])
  else snd (_txGet server now' txid opts' p1) = [txid].
Proof.
  intros Hfirst Hopts p1.
  assert (RequestCache.get txid (cache p1) = Some v) as Hcached.
  { unfold p1. revert Hfirst. unfold _txGet.
    assert (fst (fst (fetch server now txid p)) = Some v ->
            RequestCache.get txid (cache (snd (fst (fetch server now txid p)))) = Some v)
      as Hfetch.
    { unfold fetch. destruct (server txid) as [raw|]; simpl; [|discriminate].
      intros [= <-]. apply get_set_same. }
    destruct (is_false opts); [exact Hfetch|].
    destruct (RequestCache.get txid (cache p)) as [cv|] eqn:Eg; [|exact Hfetch].
    destruct (height_not_zero cv); [|exact Hfetch].
    simpl. intros [= <-]. exact Eg. }
  unfold _txGet. rewrite (is_false_not _ Hopts), Hcached.
  destruct (height_not_zero v); [reflexivity|apply fetch_requests].
Qed.

Lemma txGet_again_witness :
  let first := _txGet one_confirmation 5 "ef" (JBool false) warm in
  fst (fst first) = Some (RequestCache.mk_tx "ef" (Some 1) (Some 102) None JNull)
  /\ JUndefined <> JBool false
  /\ _txGet one_confirmation 9 "ef" JUndefined (snd (fst first))
     = (Some (RequestCache.mk_tx "ef" (Some 1) (Some 102) None JNull),
        snd (fst first), []).
Proof.
  intros first.
  assert (fst (fst first)
          = Some (RequestCache.mk_tx "ef" (Some 1) (Some 102) None JNull)) as H1
      by reflexivity.
  assert (JUndefined <> JBool false) as H2 by discriminate.
  split; [exact H1|]. split; [exact H2|].
  exact (txGet_again one_confirmation 5 9 "ef" (JBool false) JUndefined warm _ H1 H2).
Defined.

Lemma delete_request_shrinks id (requests : gmap string string) k :
  delete_request id requests !! k = None
  \/ delete_request id requests !! k = requests !! k.
Proof.
  destruct id; simpl; try (right; reflexivity).
  destruct (decide (s = k)) as [->|Hne].
  - left. apply lookup_delete_eq.
  - right. now apply lookup_delete_ne.
Qed.

(** A frame that is no subscription push -- a reply, or data that does
    not parse -- yields at most one event (a resolve, a reject or a
    request-error), and the table never gains an entry by it; a request
    that it resolved or rejected was pending under that id and is pending
    no more afterwards, so no later frame completes it again. *)
Theorem handleResponse_completes_pending (data : option frame)
        (requests : gmap string string) (k : string) :
  (forall resp, data = Some resp -> is_subscribe (f_method resp) = false) ->
  (length (snd (_handleResponse data requests)) <= 1)%nat
  /\ (fst (_handleResponse data requests) !! k = None
      \/ fst (_handleResponse data requests) !! k = requests !! k)
  /\ forall id,
       (exists v, In (Resolved id v) (snd (_handleResponse data requests)))
       \/ (exists e m, In (Rejected id e m) (snd (_handleResponse data requests))) ->
       is_Some (requests !! id)
       /\ fst (_handleResponse data requests) !! id = None.
Proof.
  intros Hreply. unfold _handleResponse.
  destruct data as [resp|]; [|simpl].
  2:{ split; [lia|]. split; [right; reflexivity|].
      intros id [[v [H|[]]] | (e & m & [H|[]])]; discriminate. }
  rewrite (Hreply resp eq_refl).
  destruct (truthy (f_error resp)).
  - simpl. split.
    { destruct (get_request (f_id resp) requests) as [[i m]|]; simpl; lia. }
    split; [apply delete_request_shrinks|].
    unfold get_request. destruct (f_id resp) as [| | | |s| |]; simpl;
      try (intros id [[v []] | (e & m & [])]).
    destruct (requests !! s) as [method|] eqn:E; simpl.
    + intros id [[v [H|[]]] | (e & m & [H|[]])]; [discriminate|].
      injection H as <- _ _. split; [eauto|apply lookup_delete_eq].
    + intros id [[v []] | (e & m & [])].
  - unfold get_request. destruct (f_id resp) as [| | | |s| |]; simpl;
      try (split; [lia|]; split; [right; reflexivity|];
           intros id [[v [H|[]]] | (e & m & [H|[]])]; discriminate).
    destruct (requests !! s) as [method|] eqn:E; simpl.
    + split; [lia|]. split.
      { destruct (decide (s = k)) as [->|Hne].
        - left. apply lookup_delete_eq.
        - right. now apply lookup_delete_ne. }
      intros id [[v [H|[]]] | (e & m & [H|[]])]; [|discriminate].
      injection H as <- _. split; [eauto|apply lookup_delete_eq].
    + split; [lia|]. split; [right; reflexivity|].
      intros id [[v [H|[]]] | (e & m & [H|[]])]; discriminate.
Qed.

Lemma handleResponse_completes_pending_witness :
  let requests : gmap string string := {["7"%string := "server.ping"%string]} in
  let reply := mk_frame (JStr "7") None [] JNull JUndefined in
  is_subscribe (f_method reply) = false
  /\ is_Some (requests !! "7"%string)
  /\ fst (_handleResponse (Some reply) requests) !! "7"%string = None.
Proof.
  intros requests reply.
  assert (forall resp, Some reply = Some resp -> is_subscribe (f_method resp) = false)
    as Hreply by (intros resp [= <-]; reflexivity).
  split; [reflexivity|].
  apply (proj2 (proj2 (handleResponse_completes_pending (Some reply) requests "7" Hreply))
           "7"%string).
  left. exists JNull. left. reflexivity.
Defined.



(** A request made while connected, under an id that is not in use, and
    answered by a frame with that id, no [error] and a result that is
    [null] or truthy: the caller gets the result and the table is back to
    what it was. When not connected, the request is refused. *)
Theorem makeRequest_roundtrip (id method : string) (result : jsval)
        (requests requests' : gmap string string) :
  requests !! id = None ->
  result = JNull \/ truthy result = true ->
  _makeRequest true id method requests = Some requests' ->
  _handleResponse (Some (mk_frame (JStr id) None [] result JUndefined)) requests'
  = (requests, [Resolved id result])
  /\ _makeRequest false id method requests = None.
Proof.
  intros Hfresh Hres [= <-]. split; [|reflexivity].
  rewrite (handleResponse_result _ (<[id := method]> requests) id method);
    try reflexivity; try assumption.
  - simpl. now rewrite delete_insert_eq, delete_id.
  - apply lookup_insert_eq.
Qed.

Lemma makeRequest_roundtrip_witness :
  _handleResponse (Some (mk_frame (JStr "7") None [] (JStr "txid") JUndefined))
    (<["7"%string := "blockchain.transaction.broadcast"%string]> ∅)
  = (∅, [Resolved "7" (JStr "txid")]).
Proof.
  apply (makeRequest_roundtrip "7" "blockchain.transaction.broadcast" (JStr "txid") ∅).
  - apply lookup_empty.
  - right. reflexivity.
  - reflexivity.
Defined.

End TransportFacts.

Section DuplicateReply.
Import Electrum Transport.

(** A reply that arrives twice in one read completes its request once:
    the first copy resolves it, the second finds nothing pending and is
    reported as a [request-error]. *)
Theorem handle_all_duplicate (resp : frame) (id method : string)
        (requests : gmap string string) :
  is_subscribe (f_method resp) = false ->
  f_id resp = JStr id ->
  requests !! id = Some method ->
  truthy (f_error resp) = false ->
  f_result resp = JNull \/ truthy (f_result resp) = true ->
  handle_all [Some resp; Some resp] requests
  = (delete id requests, [Resolved id (f_result resp); RequestError]).
Proof.
  intros Hsub Hid Hreq Herr Hres. unfold handle_all. cbn [fold_left fst snd].
  rewrite (handleResponse_result resp requests id method) by assumption.
  cbn [fst snd app].
  unfold _handleResponse. rewrite Hsub, Herr, Hid. simpl.
  now rewrite lookup_delete_eq.
Qed.

Lemma handle_all_duplicate_witness :
  let resp := mk_frame (JStr "7") None [] (JStr "txid") JUndefined in
  handle_all [Some resp; Some resp]
    {["7"%string := "blockchain.transaction.broadcast"%string]}
  = (delete "7"%string {["7"%string := "blockchain.transaction.broadcast"%string]},
     [Resolved "7" (JStr "txid"); RequestError]).
Proof.
  intros resp.
  apply (handle_all_duplicate resp "7" "blockchain.transaction.broadcast").
  - reflexivity.
  - reflexivity.
  - apply lookup_singleton_eq.
  - reflexivity.
  - right. reflexivity.
Defined.

End DuplicateReply.

(** ** Builder: further facts *)

Section BuilderFacts.
Import Transaction Builder.

(** What a successful [_generateRawTx] leaves behind. *)
Lemma generateRawTx_returns fuel w total fee sendAmount weight s entry :
  fst (_generateRawTx fuel w total fee sendAmount weight s) = Return entry ->
  exists attempt retries,
    _txData (snd (_generateRawTx fuel w total fee sendAmount weight s))
    = _txData s ++ [attempt]
    /\ calls (snd (_generateRawTx fuel w total fee sendAmount weight s))
       = calls s ++ retries
    /\ Forall retry_call retries
    /\ entry = mk_entry (fee * weight) sendAmount
    /\ sent_fee attempt = fee * weight
    /\ DUST_LIMIT <= sent_change attempt
    /\ sent_total attempt = sendAmount + sent_fee attempt + sent_change attempt
    /\ sent_vSize attempt = virtualSize w (sent_total attempt) (sent_change attempt)
    /\ DUST_LIMIT < sendAmount.
Proof.
  revert total s. induction fuel as [|fuel IH]; intros total s; simpl; [discriminate|].
  destruct (Z.leb_spec sendAmount DUST_LIMIT) as [Hd|Hd]; [discriminate|].
  destruct (Z.ltb_spec (total - sendAmount - fee * weight) DUST_LIMIT) as [Hc|Hc].
  - unfold ask. simpl.
    destruct (utxoForAmount w (asked s) (total + fee)) as [newTotal|] eqn:E; simpl;
      [|discriminate].
    intros Hret.
    destruct (IH newTotal _ Hret)
      as (att & retries & Hd1 & Hc1 & Hr & He & Hf & Hch & Ht & Hv & Hs).
    exists att, (UnlockUtxo false :: UtxoForAmount (total + fee) (Some newTotal) :: retries).
    simpl in Hd1, Hc1. rewrite Hd1, Hc1, <- !app_assoc. simpl.
    repeat split; try assumption.
    repeat constructor. exact Hr.
  - destruct (maximumFeeRate
              <=? fee * weight / virtualSize w total (total - sendAmount - fee * weight));
      [discriminate|].
    simpl. intros [= <-].
    eexists. exists []. rewrite app_nil_r. simpl.
    repeat split; simpl; try reflexivity; try lia. constructor.
Qed.

(** When [_generateRawTx] returns, it has recorded one more attempt, whose
    fee is rate times weight, whose change is at least the dust limit --
    an exact spend with no change is never built -- and whose inputs cover
    exactly amount, fee and change; the amount is above the dust limit;
    and all it asked of the sync manager on the way were retries, each an
    [unlockUtxo(false)] followed by a granted [utxoForAmount]. *)
Theorem generateRawTx_success (fuel : nat) (w : world) (total fee sendAmount weight : Z)
        (s : state) (entry : txEntry) :
  fst (_generateRawTx fuel w total fee sendAmount weight s) = Return entry ->
  exists attempt retries,
    _txData (snd (_generateRawTx fuel w total fee sendAmount weight s))
    = _txData s ++ [attempt]
    /\ calls (snd (_generateRawTx fuel w total fee sendAmount weight s))
       = calls s ++ retries
    /\ Forall retry_call retries
    /\ entry = mk_entry (fee * weight) sendAmount
    /\ sent_fee attempt = fee * weight
    /\ DUST_LIMIT <= sent_change attempt
    /\ sent_total attempt = sendAmount + sent_fee attempt + sent_change attempt
    /\ sent_vSize attempt = virtualSize w (sent_total attempt) (sent_change attempt)
    /\ DUST_LIMIT < sendAmount.
Proof.
  revert total s. induction fuel as [|fuel IH]; intros total s; simpl; [discriminate|].
  destruct (Z.leb_spec sendAmount DUST_LIMIT) as [Hd|Hd]; [discriminate|].
  destruct (Z.ltb_spec (total - sendAmount - fee * weight) DUST_LIMIT) as [Hc|Hc].
  - unfold ask. simpl.
    destruct (utxoForAmount w (asked s) (total + fee)) as [newTotal|] eqn:E; simpl;
      [|discriminate].
    intros Hret.
    destruct (IH newTotal _ Hret)
      as (att & retries & Hd1 & Hc1 & Hr & He & Hf & Hch & Ht & Hv & Hs).
    exists att, (UnlockUtxo false :: UtxoForAmount (total + fee) (Some newTotal) :: retries).
    simpl in Hd1, Hc1. rewrite Hd1, Hc1, <- !app_assoc. simpl.
    repeat split; try assumption.
    repeat constructor. exact Hr.
  - destruct (maximumFeeRate
              <=? fee * weight / virtualSize w total (total - sendAmount - fee * weight));
      [discriminate|].
    simpl. intros [= <-].
    eexists. exists []. rewrite app_nil_r. simpl.
    repeat split; simpl; try reflexivity; try lia. constructor.
Qed.

Lemma generateRawTx_success_witness :
  fst (_generateRawTx 3 (one_utxo Rejects) 10000 2 5000 141 start)
  = Return (mk_entry 282 5000)
  /\ exists attempt retries,
       _txData (snd (_generateRawTx 3 (one_utxo Rejects) 10000 2 5000 141 start))
       = _txData start ++ [attempt]
       /\ calls (snd (_generateRawTx 3 (one_utxo Rejects) 10000 2 5000 141 start))
          = calls start ++ retries
       /\ Forall retry_call retries
       /\ mk_entry 282 5000 = mk_entry (2 * 141) 5000
       /\ sent_fee attempt = 2 * 141
       /\ DUST_LIMIT <= sent_change attempt
       /\ sent_total attempt = 5000 + sent_fee attempt + sent_change attempt
       /\ sent_vSize attempt
          = virtualSize (one_utxo Rejects) (sent_total attempt) (sent_change attempt)
       /\ DUST_LIMIT < 5000.
Proof.
  assert (fst (_generateRawTx 3 (one_utxo Rejects) 10000 2 5000 141 start)
          = Return (mk_entry 282 5000)) as H by reflexivity.
  split; [exact H|].
  exact (generateRawTx_success 3 (one_utxo Rejects) 10000 2 5000 141 start _ H).
Defined.

Lemma getLastAttempt_snoc (s : state) l a :
  _txData s = l ++ [a] -> getLastAttempt s = Some a.
Proof.
  intros H. unfold getLastAttempt. rewrite H, map_app. simpl.
  apply List.last_last.
Qed.

(** A successful [_createTransaction] has made exactly two attempts: a
    probe at weight 1, whose fee is the bare rate, and the final one at the
    virtual size of the probe; the entry it returns carries the final fee,
    rate times that size; its last call is [addSentTx]; and the rate was
    within (0, 100000]. *)
Theorem createTransaction_two_pass (fuel : nat) (w : world) (cfg : config)
        (amount rate : Z) (s : state) (entry : txEntry) :
  fst (_createTransaction fuel w (new cfg) amount (Some rate) s) = Return entry ->
  exists probe final before,
    _txData (snd (_createTransaction fuel w (new cfg) amount (Some rate) s))
    = _txData s ++ [probe; final]
    /\ calls (snd (_createTransaction fuel w (new cfg) amount (Some rate) s))
       = before ++ [AddSentTx]
    /\ sent_fee probe = rate
    /\ sent_fee final = rate * sent_vSize probe
    /\ entry = mk_entry (rate * sent_vSize probe) amount
    /\ DUST_LIMIT <= sent_change final
    /\ 0 < rate <= 100000.
Proof.
  unfold _createTransaction.
  destruct (negb (truthy_num (Some rate)) || js_le (Some rate) (Some 0)
            || js_gt (Some rate) (_max_fee_limit (new cfg))) eqn:Efee; [discriminate|].
  assert (0 < rate <= 100000) as Hrate.
  { simpl in Efee.
    destruct (Z.eqb_spec rate 0), (Z.leb_spec rate 0), (Z.ltb_spec 100000 rate);
      simpl in Efee; try discriminate; lia. }
  destruct (ask w amount (log GetInternalAddress s)) as [[total|] s1] eqn:Eask;
    [|discriminate].
  assert (_txData s1 = _txData s) as Hd1.
  { unfold ask in Eask. injection Eask as _ <-. reflexivity. }
  simpl default.
  destruct (_generateRawTx fuel w total rate amount 1 s1) as [[e1|e1|] s2] eqn:E1;
    try discriminate.
  destruct (generateRawTx_returns fuel w total rate amount 1 s1 e1)
    as (probe & r1 & Hp1 & _ & _ & _ & Hpf & _ & _ & _ & _);
    [now rewrite E1|].
  rewrite E1 in Hp1. simpl in Hp1.
  rewrite (getLastAttempt_snoc s2 _ probe Hp1).
  destruct (_generateRawTx fuel w total rate amount (sent_vSize probe) s2)
    as [[e2|e2|] s3] eqn:E2; try discriminate.
  destruct (generateRawTx_returns fuel w total rate amount (sent_vSize probe) s2 e2)
    as (final & r2 & Hp2 & _ & _ & He2 & Hff & Hch & _ & _ & _);
    [now rewrite E2|].
  rewrite E2 in Hp2. simpl in Hp2. simpl.
  intros [= <-].
  exists probe, final, (calls s3).
  rewrite Hp2, Hp1, Hd1, <- app_assoc. simpl.
  repeat split; try assumption; try lia.
Qed.

Lemma createTransaction_two_pass_witness :
  fst (_createTransaction 3 (one_utxo Rejects) (new (mk_config None)) 5000 (Some 2) start)
  = Return (mk_entry 282 5000)
  /\ exists probe final before,
       _txData (snd (_createTransaction 3 (one_utxo Rejects) (new (mk_config None))
                       5000 (Some 2) start))
       = _txData start ++ [probe; final]
       /\ calls (snd (_createTransaction 3 (one_utxo Rejects) (new (mk_config None))
                        5000 (Some 2) start))
          = before ++ [AddSentTx]
       /\ sent_fee probe = 2
       /\ sent_fee final = 2 * sent_vSize probe
       /\ mk_entry 282 5000 = mk_entry (2 * sent_vSize probe) 5000
       /\ DUST_LIMIT <= sent_change final
       /\ 0 < 2 <= 100000.
Proof.
  assert (fst (_createTransaction 3 (one_utxo Rejects) (new (mk_config None))
                 5000 (Some 2) start)
          = Return (mk_entry 282 5000)) as H by reflexivity.
  split; [exact H|].
  exact (createTransaction_two_pass 3 (one_utxo Rejects) (mk_config None)
           5000 2 start _ H).
Defined.

Lemma locks_held_snoc_unlock held l success :
  locks_held held (l ++ [UnlockUtxo success]) = false.
Proof. rewrite locks_held_app. reflexivity. Qed.

(** [send] returns normally only after a broadcast that was followed by
    [unlockUtxo(true)]: its log ends with these two calls and no UTXO is
    locked afterwards. When [_createTransaction] fails, [send] fails the
    same way and nothing is broadcast. *)
Theorem send_success_unlocks (fuel : nat) (w : world) (this : Transaction.t)
        (amount : Z) (fee : jsnum) (s : state) (held : bool) :
  (forall entry,
      fst (send fuel w this amount fee s) = Return entry ->
      fst (_createTransaction fuel w this amount fee s) = Return entry
      /\ calls (snd (send fuel w this amount fee s))
         = calls (snd (_createTransaction fuel w this amount fee s))
             ++ [Broadcast; UnlockUtxo true]
      /\ locks_held held (calls (snd (send fuel w this amount fee s))) = false)
  /\ ((forall entry, fst (_createTransaction fuel w this amount fee s) <> Return entry) ->
      send fuel w this amount fee s = _createTransaction fuel w this amount fee s).
Proof.
  unfold send.
  destruct (_createTransaction fuel w this amount fee s) as [[tx|e|] s1]; simpl.
  - split; [|intros H; exfalso; exact (H tx eq_refl)].
    intros entry.
    destruct (broadcastTransaction w) as [|r]; [discriminate|].
    destruct (has_message r); simpl; [discriminate|].
    intros [= <-]. split; [reflexivity|]. split.
    + rewrite <- app_assoc. reflexivity.
    + rewrite !locks_held_app. reflexivity.
  - split; [discriminate|reflexivity].
  - split; [discriminate|reflexivity].
Qed.

Lemma send_success_unlocks_witness :
  fst (send 3 (one_utxo (Resolves None)) (new (mk_config None)) 5000 (Some 2) start)
  = Return (mk_entry 282 5000)
  /\ locks_held true
       (calls (snd (send 3 (one_utxo (Resolves None)) (new (mk_config None))
                      5000 (Some 2) start)))
     = false.
Proof.
  assert (fst (send 3 (one_utxo (Resolves None)) (new (mk_config None))
                 5000 (Some 2) start)
          = Return (mk_entry 282 5000)) as H by reflexivity.
  split; [exact H|].
  exact (proj2 (proj2 (proj1 (send_success_unlocks 3 (one_utxo (Resolves None))
                                (new (mk_config None)) 5000 (Some 2) start true)
                         _ H))).
Defined.

(** With a sync manager that grants at least what it is asked for (or
    throws) and a positive rate, the retries of [_generateRawTx] come to an
    end: each retry asks for the old total plus the rate, so the shortfall
    shrinks; fuel beyond the shortfall in satoshis is never used up. *)
Theorem generateRawTx_terminates (fuel : nat) (w : world)
        (total fee sendAmount weight : Z) (s : state) :
  honest w ->
  0 < fee ->
  (Z.to_nat (sendAmount + fee * weight + DUST_LIMIT - total) < fuel)%nat ->
  fst (_generateRawTx fuel w total fee sendAmount weight s) <> OutOfFuel.
Proof.
  intros Hw Hfee. revert total s.
  induction fuel as [|fuel IH]; intros total s Hfuel; [lia|]. simpl.
  destruct (Z.leb_spec sendAmount DUST_LIMIT); [discriminate|].
  destruct (Z.ltb_spec (total - sendAmount - fee * weight) DUST_LIMIT) as [Hc|Hc];
    [|destruct (maximumFeeRate <=? _); discriminate].
  unfold ask. simpl.
  destruct (utxoForAmount w (asked s) (total + fee)) as [newTotal|] eqn:E; simpl;
    [|discriminate].
  apply IH. apply Hw in E. lia.
Qed.

Lemma one_utxo_honest r : honest (one_utxo r).
Proof.
  intros k amount total. unfold one_utxo. simpl.
  destruct (Z.leb_spec amount 10000); [|discriminate].
  intros [= <-]. exact H.
Qed.

Lemma generateRawTx_terminates_witness :
  honest (one_utxo Rejects) /\ 0 < 2
  /\ fst (_generateRawTx 800 (one_utxo Rejects) 10000 2 9900 141 start) <> OutOfFuel.
Proof.
  assert (0 < 2) as Hfee by lia.
  split; [apply one_utxo_honest|]. split; [exact Hfee|].
  apply (generateRawTx_terminates 800 (one_utxo Rejects) 10000 2 9900 141 start
           (one_utxo_honest Rejects) Hfee).
  unfold DUST_LIMIT. lia.
Defined.

End BuilderFacts.

(** ** Provider: facts about the assembled view *)

Section ProviderFacts.
Import Electrum Provider.

Variable to_amount : jsval -> Z.

(** What a successful [getTransaction] was made of. *)
Lemma getTransaction_parts server now txid opts p v p' :
  getTransaction to_amount server now txid opts p = Some (v, p') ->
  exists tx p1 vouts mapped vins ins,
    fst (_txGet server now txid opts p) = (Some tx, p1)
    /\ as_array (body_field "vout" tx) = Some vouts
    /\ mapM (output_of to_amount tx) vouts = Some mapped
    /\ as_array (body_field "vin" tx) = Some vins
    /\ inputs_of to_amount server now opts tx vins p1 = Some (ins, p')
    /\ v = mk_view txid (RequestCache.tx_height tx) (omap id mapped) ins
             (omap unconfirmed ins) (map standard mapped)
             (map (fun _ => false) ins)
             (if total_in ins =? 0 then total_in ins
              else total_in ins - total_out (omap id mapped)).
Proof.
  unfold getTransaction.
  destruct (_txGet server now txid opts p) as [[[tx|] p1] reqs]; [|discriminate].
  destruct (as_array (body_field "vout" tx)) as [vouts|] eqn:E1; [|discriminate].
  destruct (mapM (output_of to_amount tx) vouts) as [mapped|] eqn:E2; [|discriminate].
  destruct (as_array (body_field "vin" tx)) as [vins|] eqn:E3; [|discriminate].
  destruct (inputs_of to_amount server now opts tx vins p1) as [[ins p2]|] eqn:E4;
    [|discriminate].
  intros [= <- <-]. exists tx, p1, vouts, mapped, vins, ins.
  repeat split; assumption || reflexivity.
Qed.

Lemma output_of_listed tx vout o :
  output_of to_amount tx vout = Some (Some o) ->
  truthy (o_address o) = true
  /\ o_txid o = RequestCache.tx_txid tx
  /\ o_height o = RequestCache.tx_height tx
  /\ o_tx_height o = Some (RequestCache.tx_height tx).
Proof.
  unfold output_of, _processTxVout.
  destruct (prop "scriptPubKey" vout) as [spk|]; [|discriminate].
  destruct (_getTxAddress spk) as [a|]; [|discriminate].
  destruct (prop "value" vout) as [val|]; [|discriminate].
  destruct (prop "hex" spk) as [hex|]; [|discriminate].
  destruct (prop "n" vout) as [n|]; [|discriminate].
  simpl. destruct (truthy a) eqn:Ea; simpl; [|discriminate].
  intros [= <-]. simpl. repeat split. exact Ea.
Qed.

Lemma omap_standard (mapped : list (option output)) :
  length (omap id mapped) = length (List.filter (fun b : bool => b) (map standard mapped)).
Proof.
  induction mapped as [|[o|] rest IH]; [reflexivity| |exact IH].
  change (S (length (omap id rest))
          = S (length (List.filter (fun b : bool => b) (map standard rest)))).
  now f_equal.
Qed.

(** In the view of a successful [getTransaction], [std_out] has one flag
    per [vout] of the fetched transaction, in order; [out] has one entry
    per [true] flag; and every entry of [out] has a truthy address and
    carries the txid and the height of the fetched transaction. The view
    itself carries the txid that was asked for. *)
Theorem getTransaction_outputs (server : string -> option RequestCache.tx) (now : Z)
        (txid : string) (opts : jsval) (p p' : Electrum.t) (v : view) :
  getTransaction to_amount server now txid opts p = Some (v, p') ->
  exists tx vouts,
    fst (fst (_txGet server now txid opts p)) = Some tx
    /\ as_array (body_field "vout" tx) = Some vouts
    /\ v_txid v = txid
    /\ v_height v = RequestCache.tx_height tx
    /\ length (v_std_out v) = length vouts
    /\ length (v_out v) = length (List.filter (fun b : bool => b) (v_std_out v))
    /\ Forall (fun o => truthy (o_address o) = true
                        /\ o_txid o = RequestCache.tx_txid tx
                        /\ o_height o = RequestCache.tx_height tx
                        /\ o_tx_height o = Some (RequestCache.tx_height tx))
              (v_out v).
Proof.
  intros H.
  destruct (getTransaction_parts _ _ _ _ _ _ _ H)
    as (tx & p1 & vouts & mapped & vins & ins & Hget & Hv & Hm & _ & _ & ->).
  exists tx, vouts. simpl. rewrite Hget. simpl.
  apply mapM_Some_1 in Hm.
  split; [reflexivity|]. split; [exact Hv|]. split; [reflexivity|].
  split; [reflexivity|]. split; [|split].
  - rewrite length_map. symmetry. eapply Forall2_length. exact Hm.
  - apply omap_standard.
  - clear Hget Hv H. induction Hm as [|vout o vouts' mapped' Ho _ IH]; simpl.
    + constructor.
    + destruct o as [o|]; simpl; [|exact IH].
      constructor; [|exact IH]. eapply output_of_listed. exact Ho.
Qed.

Lemma input_of_shape server now opts tx vin p i p1 :
  input_of to_amount server now opts tx vin p = Some (i, p1) ->
  match i with
  | Coinbase c before value =>
      p1 = p
      /\ before = height_before tx
      /\ value = match height_before tx with
                 | Some h => Some (getBlockReward h)
                 | None => None
                 end
  | Spend detail prev idx before =>
      o_txid detail = RequestCache.tx_txid tx
      /\ o_height detail = RequestCache.tx_height tx
      /\ exists prev_txid txDetail,
           prev = JStr prev_txid
           /\ fst (fst (_txGet server now prev_txid opts p)) = Some txDetail
           /\ before = RequestCache.tx_height txDetail
  end.
Proof.
  unfold input_of.
  destruct (prop "coinbase" vin) as [c|]; [|discriminate].
  destruct (truthy c).
  { intros [= <- <-]. repeat split. }
  destruct (prop "txid" vin) as [[| | | |prev| |]|]; try discriminate.
  destruct (prop "vout" vin) as [idx|]; [|discriminate].
  destruct (_txGet server now prev opts p) as [[[txDetail|] p2] reqs] eqn:Eg;
    [|discriminate].
  destruct (element idx (body_field "vout" txDetail)) as [item|]; [|discriminate].
  destruct (_processTxVout to_amount item tx) as [newvin|] eqn:Ev; [|discriminate].
  intros [= <- <-].
  unfold _processTxVout in Ev.
  destruct (prop "scriptPubKey" item) as [spk|]; [|discriminate].
  destruct (_getTxAddress spk), (prop "value" item), (prop "hex" spk), (prop "n" item);
    try discriminate.
  injection Ev as <-. simpl. split; [reflexivity|]. split; [reflexivity|].
  exists prev, txDetail. rewrite Eg. repeat split.
Qed.

(** In the view of a successful [getTransaction], [in] has one entry per
    [vin], and [std_in] one flag per [vin], every one of them [false]. A
    coinbase input is valued at the block reward of the height before the
    transaction's; a spent output carries the txid and height of the
    spending transaction, not of the one it comes from. The fee is 0 when
    the spent outputs sum to 0 -- as for a coinbase transaction -- and
    otherwise the sum of the spent outputs less the sum of [out]. *)
Theorem getTransaction_inputs (server : string -> option RequestCache.tx) (now : Z)
        (txid : string) (opts : jsval) (p p' : Electrum.t) (v : view) :
  getTransaction to_amount server now txid opts p = Some (v, p') ->
  exists tx vins,
    fst (fst (_txGet server now txid opts p)) = Some tx
    /\ as_array (body_field "vin" tx) = Some vins
    /\ length (v_in v) = length vins
    /\ v_std_in v = repeat false (length vins)
    /\ Forall (fun i => match i with
                        | Coinbase _ before value =>
                            before = height_before tx
                            /\ value = match height_before tx with
                                       | Some h => Some (getBlockReward h)
                                       | None => None
                                       end
                        | Spend detail _ _ _ =>
                            o_txid detail = RequestCache.tx_txid tx
                            /\ o_height detail = RequestCache.tx_height tx
                        end) (v_in v)
    /\ v_fee v = (if total_in (v_in v) =? 0 then 0
                  else total_in (v_in v) - total_out (v_out v)).
Proof.
  intros H.
  destruct (getTransaction_parts _ _ _ _ _ _ _ H)
    as (tx & p1 & vouts & mapped & vins & ins & Hget & _ & _ & Hv & Hi & ->).
  exists tx, vins. simpl. rewrite Hget. simpl.
  assert (length ins = length vins
          /\ Forall (fun i => match i with
                              | Coinbase _ before value =>
                                  before = height_before tx
                                  /\ value = match height_before tx with
                                             | Some h => Some (getBlockReward h)
                                             | None => None
                                             end
                              | Spend detail _ _ _ =>
                                  o_txid detail = RequestCache.tx_txid tx
                                  /\ o_height detail = RequestCache.tx_height tx
                              end) ins) as [Hlen Hall].
  { clear H Hget Hv. revert p1 ins Hi.
    induction vins as [|vin rest IH]; intros p1 ins; simpl.
    - intros [= <-]. split; [reflexivity|constructor].
    - destruct (input_of to_amount server now opts tx vin p1) as [[i p2]|] eqn:Ei;
        [|discriminate].
      destruct (inputs_of to_amount server now opts tx rest p2) as [[others p3]|] eqn:Er;
        [|discriminate].
      intros [= <- <-]. destruct (IH _ _ Er) as [Hl Hf].
      split; [simpl; now rewrite Hl|].
      constructor; [|exact Hf].
      apply input_of_shape in Ei. destruct i; [tauto|].
      destruct Ei as (H1 & H2 & _). split; assumption. }
  repeat split; try assumption.
  - rewrite <- Hlen. clear. induction ins; simpl; [reflexivity|now f_equal].
  - destruct (Z.eqb_spec (total_in ins) 0) as [->|]; reflexivity.
Qed.

End ProviderFacts.

Section ProviderExample.
Import Electrum Provider.

(** The coinbase transaction of block 101 seen from tip 102: height 101,
    the output without address flagged and left out, the input valued at
    the reward of block 100, no fee. *)
Lemma getTransaction_coinbase :
  let p := Electrum.mk (RequestCache.new (RequestCache.mk_config None None) ∅ None) 102 in
  exists v p',
    getTransaction whole_coins coinbase_server 5 "cb" JUndefined p = Some (v, p')
    /\ v_height v = Some 101
    /\ v_std_out v = [true; false]
    /\ map o_value (v_out v) = [5000000000]
    /\ v_in v = [Coinbase (JStr "0165") (Some 100) (Some (getBlockReward 100))]
    /\ v_std_in v = [false]
    /\ v_fee v = 0.
Proof.
  intros p. eexists. eexists. split; [reflexivity|].
  repeat split.
Qed.

Lemma getTransaction_outputs_witness :
  let p := Electrum.mk (RequestCache.new (RequestCache.mk_config None None) ∅ None) 102 in
  exists v p',
    getTransaction whole_coins coinbase_server 5 "cb" JUndefined p = Some (v, p')
    /\ exists tx vouts,
         fst (fst (_txGet coinbase_server 5 "cb" JUndefined p)) = Some tx
         /\ as_array (body_field "vout" tx) = Some vouts
         /\ v_txid v = "cb"%string
         /\ v_height v = RequestCache.tx_height tx
         /\ length (v_std_out v) = length vouts
         /\ length (v_out v) = length (List.filter (fun b : bool => b) (v_std_out v))
         /\ Forall (fun o => truthy (o_address o) = true
                             /\ o_txid o = RequestCache.tx_txid tx
                             /\ o_height o = RequestCache.tx_height tx
                             /\ o_tx_height o = Some (RequestCache.tx_height tx))
                   (v_out v).
Proof.
  intros p.
  destruct getTransaction_coinbase as (v & p' & Hv & _).
  exists v, p'. split; [exact Hv|].
  exact (getTransaction_outputs whole_coins coinbase_server 5 "cb" JUndefined p p' v Hv).
Defined.

Lemma getTransaction_inputs_witness :
  let p := Electrum.mk (RequestCache.new (RequestCache.mk_config None None) ∅ None) 102 in
  exists v p',
    getTransaction whole_coins coinbase_server 5 "cb" JUndefined p = Some (v, p')
    /\ exists tx vins,
         fst (fst (_txGet coinbase_server 5 "cb" JUndefined p)) = Some tx
         /\ as_array (body_field "vin" tx) = Some vins
         /\ length (v_in v) = length vins
         /\ v_std_in v = repeat false (length vins)
         /\ Forall (fun i => match i with
                             | Coinbase _ before value =>
                                 before = height_before tx
                                 /\ value = match height_before tx with
                                            | Some h => Some (getBlockReward h)
                                            | None => None
                                            end
                             | Spend detail _ _ _ =>
                                 o_txid detail = RequestCache.tx_txid tx
                                 /\ o_height detail = RequestCache.tx_height tx
                             end) (v_in v)
         /\ v_fee v = (if total_in (v_in v) =? 0 then 0
                       else total_in (v_in v) - total_out (v_out v)).
Proof.
  intros p.
  destruct getTransaction_coinbase as (v & p' & Hv & _).
  exists v, p'. split; [exact Hv|].
  exact (getTransaction_inputs whole_coins coinbase_server 5 "cb" JUndefined p p' v Hv).
Defined.

End ProviderExample.
